(** * Verification of the cenele infinite-scroll chapter reader

    A shallow embedding of the reader's chapter-loading engine:

    - [Fetch]  : [lib/fetch] ([fetchChapter], [extractChapterData]);
    - [Reader] : the refactored reader component ([calculateScrollPercentage],
                 [handleScroll], [loadNextChapter], [updateChapters],
                 [restoreScrollPosition]);
    - [Legacy] : the first version of the component, [src/ChapterPage.tsx].

    Conventions of the embedding.

    - The number arithmetic of the scroll percentage (comparisons, negation,
      division, multiplication, [Math.max], [Math.min]) belongs to the host
      language; it is a parameter of the embedding ([Arith]), with IEEE 754
      binary64 ([ieee]) and exact rational arithmetic ([exact]) as instances.
    - Scroll offsets ([scrollY], [offsetTop]) are only added and subtracted;
      they are modelled as exact rationals ([Q]).
    - A chapter identifier is the result of [Number(...)] and may be [NaN];
      it is modelled by [JSNum].
    - Solid signals are the fields of the record [State]; a setter is a
      record update.
    - Everything the code does to the outside world (HTTP request, console
      output, navigation, scrolling) is recorded as a list of [Effect]s.
    - A call of an [async] function is one action: the completion of the
      promise it awaits and the page layout its continuation sees are inputs.
      While a call waits, the only handlers that can run are calls that the
      [fetching] guard turns into no-ops (see [loadNextChapter_reentrant]).
    - A microtask queued by the code is an effect ([QueueMicrotask]); the
      event loop runs it when the task that queued it has finished. *)

From Stdlib Require Import List String Ascii Bool ZArith QArith Qminmax Lia Lqa.
From Stdlib Require Import PrimFloat.

#[local] Set Warnings "-inexact-float".
Import ListNotations.

Set Implicit Arguments.

(** ** JavaScript values used by the code *)

Module JS.

(** A JavaScript number as far as identifiers are concerned. *)
Inductive JSNum : Type :=
| NaN
| Num (q : Q).

(** The values that flow through [extractChapterData]. *)
Inductive JSVal : Type :=
| VUndefined
| VNull
| VStr (s : string)
| VNum (n : JSNum).

(** Truthiness, as tested by the conditional operator. *)
Definition truthy (v : JSVal) : bool :=
  match v with
  | VUndefined | VNull => false
  | VStr s => negb (String.eqb s EmptyString)
  | VNum NaN => false
  | VNum (Num q) => negb (Qeq_bool q 0)
  end.

(** [v === null]. *)
Definition strict_eq_null (v : JSVal) : bool :=
  match v with
  | VNull => true
  | _ => false
  end.

(** The value of the [scrollAnchorInfo] signal: [{ id, offset }]. *)
Record Anchor : Type := mkAnchor {
  anchor_id : JSNum;
  offset : Q
}.

(** An exception value. *)
Inductive JSError : Type :=
| NetworkError                 (* fetch() rejected *)
| BodyError                    (* response.text() rejected *)
| TypeError (msg : string).

(** How a call (or an awaited promise) completes. *)
Inductive Completion (A : Type) : Type :=
| Returned (a : A)
| Threw (e : JSError).
Arguments Threw {A} e.

(** Arguments handed to the console. *)
Inductive LogArg : Type :=
| LStr (s : string)
| LNum (q : Q)
| LId (n : JSNum)
| LErr (e : JSError).

Inductive Behavior : Type := Instant | Smooth | Auto.

(** Observable actions of the code. *)
Inductive Effect : Type :=
| HttpGet (url : string)                        (* fetch(url) *)
| ConsoleLog (args : list LogArg)
| ConsoleWarn (args : list LogArg)
| ConsoleError (args : list LogArg)
| Navigate (url : string)                       (* location.href = url *)
| ScrollTo (top : Q) (behavior : Behavior)      (* window.scrollTo({top, behavior}) *)
| QueueMicrotask (anchorInfo : Anchor).         (* queueMicrotask(() => ...) *)

(** [hay.includes(needle)]. *)
Fixpoint includes (needle hay : string) : bool :=
  String.prefix needle hay
  || match hay with
     | EmptyString => false
     | String _ rest => includes needle rest
     end.

End JS.
Import JS.

(** ** The chapter record shared by both modules *)

Record ChapterData : Type := mkChapterData {
  id : JSNum;
  uri : string;
  title : string;
  content : string
}.

(** The object literal [{ id: data.id, uri: data.uri, ... }]. *)
Definition copyChapterData (data : ChapterData) : ChapterData :=
  mkChapterData (id data) (uri data) (title data) (content data).

(** ** lib/fetch *)

Module Fetch.

(** An element, as far as the parser looks at it. *)
Record Element : Type := mkElement {
  attributes : list (string * string);
  textContent : string;
  innerHTML : string
}.

(** [el.getAttribute(name)]: [None] is JavaScript's [null]. *)
Fixpoint lookupAttr (name : string) (l : list (string * string)) : option string :=
  match l with
  | [] => None
  | (k, v) :: rest => if String.eqb k name then Some v else lookupAttr name rest
  end.

Definition getAttribute (el : Element) (name : string) : option string :=
  lookupAttr name (attributes el).

(** A parsed document is what its six [querySelector] calls answer. *)
Record Document : Type := mkDocument {
  bookmarkButton : option Element;   (* a.wp-manga-action-button[data-action="bookmark"] *)
  currentChap : option Element;      (* #wp-manga-current-chap *)
  chapterHeading : option Element;   (* #chapter-heading *)
  textRight : option Element;        (* .text-right *)
  entryContent : option Element;     (* .reading-content .entry-content *)
  textLeft : option Element          (* .text-left *)
}.

(** [el?.getAttribute(name)] *)
Definition optGetAttribute (el : option Element) (name : string) : JSVal :=
  match el with
  | None => VUndefined
  | Some e =>
      match getAttribute e name with
      | None => VNull
      | Some s => VStr s
      end
  end.

(** What the network answers to one GET. *)
Inductive HttpResult : Type :=
| NetworkFailure                                   (* fetch() rejects *)
| Response (status : Z) (body : option Document).  (* [None]: text() rejects *)

Definition ok (status : Z) : bool := (200 <=? status)%Z && (status <=? 299)%Z.

Definition contentMissing : string := "<p>Error: Chapter content not found.</p>".

Section Builtins.

(** The two string built-ins of the host language are parameters:
    [Number] applied to a string, and [String.prototype.trim]. *)
Variable StringToNumber : string -> JSNum.
Variable trim : string -> string.

(** [Number(v)] *)
Definition Number (v : JSVal) : JSNum :=
  match v with
  | VUndefined => NaN
  | VNull => Num 0
  | VStr s => StringToNumber s
  | VNum n => n
  end.

Definition chapterIdOf (doc : Document) : JSNum :=
  let chapterIdStr := optGetAttribute (bookmarkButton doc) "data-chapter" in
  if truthy chapterIdStr
  then Number chapterIdStr
  else Number (optGetAttribute (currentChap doc) "data-id").

Definition titleOf (doc : Document) : string :=
  match chapterHeading doc with
  | Some h => trim (textContent h)
  | None => "Chapter Title Missing"
  end.

Definition contentOf (doc : Document) : string :=
  match textRight doc with
  | Some e => innerHTML e
  | None =>
      match entryContent doc with
      | Some e => innerHTML e
      | None =>
          match textLeft doc with
          | Some e => innerHTML e
          | None => contentMissing
          end
      end
  end.

Definition idWarning : Effect :=
  ConsoleWarn [LStr "Could not extract chapter ID from bookmark button."].

Definition contentWarning : Effect :=
  ConsoleWarn [LStr "Could not extract chapter content from expected selectors."].

Definition extractChapterData (doc : Document) (uri : string)
  : list Effect * ChapterData :=
  let chapterId := chapterIdOf doc in
  let title := titleOf doc in
  let content := contentOf doc in
  ((if strict_eq_null (VNum chapterId) then [idWarning] else [])
     ++ (if includes "Error: Chapter content not found." content
         then [contentWarning] else []),
   mkChapterData chapterId uri title content).

Definition fetchFailed (title : string) : Effect :=
  ConsoleError [LStr "Failed to fetch chapter:"; LStr title].

Definition fetchChapter (url title : string) (reply : HttpResult)
  : list Effect * Completion (option ChapterData) :=
  match reply with
  | NetworkFailure => ([HttpGet url], Threw NetworkError)
  | Response status body =>
      if ok status then
        match body with
        | None => ([HttpGet url], Threw BodyError)
        | Some doc =>
            let '(logs, data) := extractChapterData doc url in
            (HttpGet url :: logs,
             Returned (Some (copyChapterData data)))
        end
      else if (status =? 404)%Z then
        ([HttpGet url; fetchFailed title], Returned None)
      else if (status =? 403)%Z then
        ([HttpGet url; Navigate url; fetchFailed title], Returned None)
      else
        ([HttpGet url; fetchFailed title], Returned None)
  end.

End Builtins.

End Fetch.

(** ** Types shared by the two versions of the reader component *)

(** An entry of the table of contents ([props.availableChapters]). *)
Record Chapter : Type := mkChapter {
  chapter_id : JSNum;
  value : string;
  text : string;
  selected : bool
}.

Record ReaderProps : Type := mkReaderProps {
  availableChapters : list Chapter;
  novelUrl : string;
  initialChapterIndex : Z;
  initialChapterData : ChapterData
}.

(** The signals of the component. *)
Record State : Type := mkState {
  nextChapterIndex : Z;
  chapters : list ChapterData;
  lastChapter : bool;
  fetching : bool;
  scrollAnchorInfo : option Anchor
}.

(** The signals as [createSignal] initialises them. *)
Definition init (props : ReaderProps) : State :=
  mkState (initialChapterIndex props + 1) [initialChapterData props] false false None.

(** The part of the page layout the window manager reads:
    [window.scrollY], and [offsetTop] of the element
    [document.getElementById(`chapter-${id}`)] when there is one. *)
Record Dom : Type := mkDom {
  scrollY : Q;
  chapterOffsetTop : JSNum -> option Q
}.

(** The number operations used by the scroll percentage. *)
Record Arith : Type := mkArith {
  num : Type;
  n0 : num;                         (* the literal 0 *)
  n100 : num;                       (* the literal 100 *)
  n60 : num;                        (* the literal 60 *)
  leb : num -> num -> bool;         (* a <= b; also b >= a *)
  ltb : num -> num -> bool;         (* a < b; also b > a *)
  strictEq : num -> num -> bool;    (* a === b *)
  neg : num -> num;                 (* -a *)
  div : num -> num -> num;          (* a / b *)
  mul : num -> num -> num;          (* a * b *)
  Math_max : num -> num -> num;
  Math_min : num -> num -> num;
  toBoolean : num -> bool           (* truthiness, as tested by || *)
}.

(** [getBoundingClientRect()] of the current chapter's content element. *)
Record DOMRect (A : Arith) : Type := mkRect {
  top : num A;
  height : num A
}.

Record Viewport (A : Arith) : Type := mkViewport {
  innerHeight : num A;        (* window.innerHeight *)
  clientHeight : num A        (* document.documentElement.clientHeight *)
}.

(** IEEE 754 binary64, the numbers of the host language. *)
Definition isNaN (x : float) : bool := negb (PrimFloat.eqb x x).

Definition isNegativeZero (x : float) : bool :=
  PrimFloat.eqb x 0%float && PrimFloat.ltb (PrimFloat.div 1%float x) 0%float.

Definition float_max (a b : float) : float :=
  if isNaN a || isNaN b then PrimFloat.nan
  else if PrimFloat.ltb a b then b
  else if PrimFloat.ltb b a then a
  else if isNegativeZero a then b else a.

Definition float_min (a b : float) : float :=
  if isNaN a || isNaN b then PrimFloat.nan
  else if PrimFloat.ltb a b then a
  else if PrimFloat.ltb b a then b
  else if isNegativeZero a then a else b.

Definition float_toBoolean (x : float) : bool :=
  negb (isNaN x) && negb (PrimFloat.eqb x 0%float).

Definition ieee : Arith :=
  mkArith 0%float 100%float 60%float PrimFloat.leb PrimFloat.ltb PrimFloat.eqb
          PrimFloat.opp PrimFloat.div PrimFloat.mul float_max float_min
          float_toBoolean.

(** Exact rational arithmetic. *)
Definition exact : Arith :=
  mkArith 0%Q 100%Q 60%Q Qle_bool (fun a b => negb (Qle_bool b a)) Qeq_bool
          Qopp Qdiv Qmult Qmax Qmin (fun q => negb (Qeq_bool q 0)).

(** The imported [fetchChapter], seen from the component: called with
    [{url, title}], it performs effects and its promise completes. *)
Definition Fetcher : Type :=
  string -> string -> list Effect * Completion (option ChapterData).

(** [arr[i]]: [None] is [undefined]. *)
Definition index {A : Type} (arr : list A) (i : Z) : option A :=
  if (i <? 0)%Z then None else nth_error arr (Z.to_nat i).

(** ** Actions: signal state, effect log and exceptions *)

Module Act.

Definition Act (A : Type) : Type := State -> Completion A * State * list Effect.

Definition ret {A : Type} (a : A) : Act A := fun s => (Returned a, s, []).

Definition bind {A B : Type} (m : Act A) (k : A -> Act B) : Act B :=
  fun s =>
    match m s with
    | (Returned a, s1, e1) =>
        match k a s1 with
        | (r, s2, e2) => (r, s2, e1 ++ e2)
        end
    | (Threw e, s1, e1) => (Threw e, s1, e1)
    end.

(** Reading a signal. *)
Definition read {A : Type} (signal : State -> A) : Act A :=
  fun s => (Returned (signal s), s, []).

Definition modify (f : State -> State) : Act unit :=
  fun s => (Returned tt, f s, []).

Definition emit (e : Effect) : Act unit :=
  fun s => (Returned tt, s, [e]).

Definition throw {A : Type} (e : JSError) : Act A :=
  fun s => (Threw e, s, []).

(** [await p], for a promise of the environment. *)
Definition await {A : Type} (p : list Effect * Completion A) : Act A :=
  fun s => (snd p, s, fst p).

(** [obj.field] where [obj] may be [undefined]. *)
Definition deref {A : Type} (obj : option A) (field : string) : Act A :=
  match obj with
  | Some o => ret o
  | None => throw (TypeError field)
  end.

(** [try { body } catch (error) { handler error } finally { final }],
    for a handler and a finaliser that do not throw. *)
Definition tryCatchFinally (body : Act unit) (handler : JSError -> Act unit)
           (final : Act unit) : Act unit :=
  fun s =>
    match body s with
    | (Returned _, s1, e1) =>
        match final s1 with
        | (r, s2, e2) => (r, s2, e1 ++ e2)
        end
    | (Threw err, s1, e1) =>
        match handler err s1 with
        | (_, s2, e2) =>
            match final s2 with
            | (r, s3, e3) => (r, s3, e1 ++ e2 ++ e3)
            end
        end
    end.

Definition stateOf {A : Type} (r : Completion A * State * list Effect) : State :=
  snd (fst r).
Definition effectsOf {A : Type} (r : Completion A * State * list Effect) : list Effect :=
  snd r.
Definition completionOf {A : Type} (r : Completion A * State * list Effect) : Completion A :=
  fst (fst r).

Module Notations.
Declare Scope act_scope.
Delimit Scope act_scope with act.
Notation "x <- m ;; k" := (bind m (fun x => k))
  (at level 61, m at next level, right associativity) : act_scope.
Notation "m ;; k" := (bind m (fun _ => k))
  (at level 61, right associativity) : act_scope.
End Notations.

End Act.
Import Act Act.Notations.

(** Signal setters. *)
Definition setNextChapterIndex (i : Z) : Act unit :=
  modify (fun s => mkState i (chapters s) (lastChapter s) (fetching s) (scrollAnchorInfo s)).
Definition setLastChapter (b : bool) : Act unit :=
  modify (fun s => mkState (nextChapterIndex s) (chapters s) b (fetching s) (scrollAnchorInfo s)).
Definition setFetching (b : bool) : Act unit :=
  modify (fun s => mkState (nextChapterIndex s) (chapters s) (lastChapter s) b (scrollAnchorInfo s)).
Definition setScrollAnchorInfo (a : option Anchor) : Act unit :=
  modify (fun s => mkState (nextChapterIndex s) (chapters s) (lastChapter s) (fetching s) a).
Definition writeChapters (cs : list ChapterData) : Act unit :=
  modify (fun s => mkState (nextChapterIndex s) cs (lastChapter s) (fetching s) (scrollAnchorInfo s)).

Local Open Scope act_scope.

(** Calling an [async] function without awaiting it: the caller goes on
    whatever the call's promise does (a rejection stays unhandled). *)
Definition detached (call : Act unit) : Act unit :=
  fun s =>
    match call s with
    | (_, s1, e1) => (Returned tt, s1, e1)
    end.

(** The microtasks a task has queued, in queueing order. *)
Definition microtasksOf (effs : list Effect) : list Anchor :=
  flat_map (fun e => match e with QueueMicrotask a => [a] | _ => [] end) effs.

(** The event loop: a task, then the microtasks it queued, each running
    [microtask] on the layout [domAfter] the page has by then. *)
Fixpoint runMicrotasks (microtask : Dom -> Anchor -> Act unit) (dom : Dom)
         (queue : list Anchor) : Act unit :=
  match queue with
  | [] => ret tt
  | a :: rest => microtask dom a ;; runMicrotasks microtask dom rest
  end.

Definition runTaskWith (microtask : Dom -> Anchor -> Act unit) (task : Act unit)
           (domAfter : Dom) (s : State) : State * list Effect :=
  match task s with
  | (_, s1, e1) =>
      match runMicrotasks microtask domAfter (microtasksOf e1) s1 with
      | (_, s2, e2) => (s2, e1 ++ e2)
      end
  end.

(** ** The refactored reader component *)

Module Reader.

Definition SCROLL_TRIGGER_PERCENTAGE (A : Arith) : num A := n60 A.
Definition SCROLL_DEBOUNCE_MS : Z := 100.

(** [window.innerHeight || document.documentElement.clientHeight] *)
Definition windowHeight (A : Arith) (vp : Viewport A) : num A :=
  if toBoolean A (innerHeight vp) then innerHeight vp else clientHeight vp.

(** [el] is [currentChapterRef]; [None] when the ref is not set. *)
Definition calculateScrollPercentage (A : Arith) (el : option (DOMRect A))
           (vp : Viewport A) : num A :=
  match el with
  | None => n0 A
  | Some rect =>
      if leb A (top rect) (neg A (height rect)) then n100 A
      else if leb A (windowHeight vp) (top rect) then n0 A
      else
        let scrolledPastHeight := Math_max A (n0 A) (neg A (top rect)) in
        let elementHeight := height rect in
        if strictEq A elementHeight (n0 A) then n0 A
        else Math_min A (n100 A)
                      (mul A (div A scrolledPastHeight elementHeight) (n100 A))
  end.

Definition restoreScrollPosition : Act unit :=
  anchorInfo <- read scrollAnchorInfo ;;
  match anchorInfo with
  | None => ret tt
  | Some a => emit (QueueMicrotask a)
  end.

(** The body of the microtask queued by [restoreScrollPosition]; [dom] is
    the layout when the microtask runs. *)
Definition restoreMicrotask (dom : Dom) (anchorInfo : Anchor) : Act unit :=
  match chapterOffsetTop dom (anchor_id anchorInfo) with
  | Some offsetTop =>
      let newScrollY := offsetTop + offset anchorInfo in
      emit (ScrollTo newScrollY Instant)
  | None =>
      emit (ConsoleWarn [LStr "Scroll anchor element chapter-";
                         LId (anchor_id anchorInfo); LStr " not found."])
  end ;;
  setScrollAnchorInfo None.

(** Writing the [chapters] signal runs the effect registered by
    [createEffect(on(chapters, restoreScrollPosition, { defer: true }))]. *)
Definition setChapters (cs : list ChapterData) : Act unit :=
  writeChapters cs ;; restoreScrollPosition.

Definition updateChapters (dom : Dom) (newChapter : ChapterData) : Act unit :=
  prevChapters <- read chapters ;;
  next <-
    (if (3 <=? List.length prevChapters)%nat then
       anchorChapter <- deref (index prevChapters 1) "id" ;;
       match chapterOffsetTop dom (id anchorChapter) with
       | Some offsetTop =>
           let scrollOffset := scrollY dom - offsetTop in
           setScrollAnchorInfo (Some (mkAnchor (id anchorChapter) scrollOffset))
       | None =>
           emit (ConsoleWarn
                   [LStr "Could not find anchor element for scroll preservation."]) ;;
           setScrollAnchorInfo None
       end ;;
       ret (skipn 1 prevChapters ++ [newChapter])
     else
       setScrollAnchorInfo None ;;
       ret (prevChapters ++ [newChapter])) ;;
  setChapters next.

(** [dom] is the layout when the continuation after [await] runs. *)
Definition loadNextChapter (fetchChapter : Fetcher) (props : ReaderProps)
           (dom : Dom) : Act unit :=
  isFetching <- read fetching ;;
  isLast <- read lastChapter ;;
  if isFetching || isLast then ret tt
  else
    i <- read nextChapterIndex ;;
    let len := Z.of_nat (List.length (availableChapters props)) in
    if (i =? len)%Z || (i >? len)%Z || (i <? 0)%Z then
      setLastChapter true
    else
      setFetching true ;;
      i <- read nextChapterIndex ;;
      let chapterToFetch := index (availableChapters props) i in
      tryCatchFinally
        (c <- deref chapterToFetch "value" ;;
         newChapter <- await (fetchChapter (value c) (text c)) ;;
         match newChapter with
         | Some ch =>
             updateChapters dom ch ;;
             j <- read nextChapterIndex ;;
             setNextChapterIndex (j + 1)
         | None =>
             setLastChapter true ;;
             setScrollAnchorInfo None
         end)
        (fun error =>
           emit (ConsoleError [LStr "Failed to fetch next chapter:"; LErr error]))
        (setFetching false).

(** The callback wrapped by [debounce]. *)
Definition handleScroll (A : Arith) (el : option (DOMRect A)) (vp : Viewport A)
           (fetchChapter : Fetcher) (props : ReaderProps) (dom : Dom) : Act unit :=
  isLast <- read lastChapter ;;
  isFetching <- read fetching ;;
  if isLast || isFetching then ret tt
  else
    let scrollPercentage := calculateScrollPercentage el vp in
    if ltb A (SCROLL_TRIGGER_PERCENTAGE A) scrollPercentage
    then detached (loadNextChapter fetchChapter props dom)
    else ret tt.

Definition runTask : Act unit -> Dom -> State -> State * list Effect :=
  runTaskWith restoreMicrotask.

(** What can happen to a mounted reader: a (debounced) scroll event, or a
    direct call of the advance operation.  Each carries what the
    environment does during it: the fetch, the layout seen by the
    continuation, and the layout seen by the microtasks; a scroll event
    also carries the geometry, in the arithmetic of the host. *)
Inductive Event : Type :=
| ScrollEvent (A : Arith) (el : option (DOMRect A)) (vp : Viewport A)
              (fetchChapter : Fetcher) (dom domAfter : Dom)
| AdvanceCall (fetchChapter : Fetcher) (dom domAfter : Dom).

Definition step (props : ReaderProps) (ev : Event) (s : State)
  : State * list Effect :=
  match ev with
  | ScrollEvent el vp fetchChapter dom domAfter =>
      runTask (handleScroll el vp fetchChapter props dom) domAfter s
  | AdvanceCall fetchChapter dom domAfter =>
      runTask (loadNextChapter fetchChapter props dom) domAfter s
  end.

Fixpoint run (props : ReaderProps) (evs : list Event) (s : State) : State :=
  match evs with
  | [] => s
  | ev :: rest => run props rest (fst (step props ev s))
  end.

(** The advance operation alone, as a state transformer. *)
Definition advance (fetchChapter : Fetcher) (props : ReaderProps)
           (dom : Dom) (s : State) : State :=
  stateOf (loadNextChapter fetchChapter props dom s).

End Reader.

(** ** The first version of the component ([src/ChapterPage.tsx]) *)

Module Legacy.

Definition windowHeight (A : Arith) (vp : Viewport A) : num A :=
  if toBoolean A (innerHeight vp) then innerHeight vp else clientHeight vp.

Definition calculateScrollPercentage (A : Arith) (el : option (DOMRect A))
           (vp : Viewport A) : num A :=
  match el with
  | None => n0 A
  | Some rect =>
      if leb A (top rect) (neg A (height rect)) then n100 A
      else if leb A (windowHeight vp) (top rect) then n0 A
      else
        let scrolledPastHeight := Math_max A (n0 A) (neg A (top rect)) in
        let elementHeight := height rect in
        if strictEq A elementHeight (n0 A) then n0 A
        else Math_min A (n100 A)
                      (mul A (div A scrolledPastHeight elementHeight) (n100 A))
  end.

(** The callback of [createEffect(on(chapters, ...))]. *)
Definition restoreEffect : Act unit :=
  anchorInfo <- read scrollAnchorInfo ;;
  match anchorInfo with
  | Some a => emit (QueueMicrotask a)
  | None => ret tt
  end.

Definition restoreMicrotask (dom : Dom) (anchorInfo : Anchor) : Act unit :=
  match chapterOffsetTop dom (anchor_id anchorInfo) with
  | Some offsetTop =>
      let newScrollY := offsetTop + offset anchorInfo in
      emit (ConsoleLog [LStr "Restoring scroll to: "; LNum newScrollY;
                        LStr " (Anchor ID: "; LId (anchor_id anchorInfo);
                        LStr ", Top: "; LNum offsetTop;
                        LStr ", Offset: "; LNum (offset anchorInfo); LStr ")"]) ;;
      emit (ScrollTo newScrollY Instant)
  | None =>
      emit (ConsoleWarn [LStr "Scroll anchor element chapter-";
                         LId (anchor_id anchorInfo);
                         LStr " not found after update."])
  end ;;
  setScrollAnchorInfo None.

Definition setChapters (cs : list ChapterData) : Act unit :=
  writeChapters cs ;; restoreEffect.

Definition loadNextChapter (fetchChapter : Fetcher) (props : ReaderProps)
           (dom : Dom) : Act unit :=
  isFetching <- read fetching ;;
  isLast <- read lastChapter ;;
  if isFetching || isLast then ret tt
  else
    setFetching true ;;
    i <- read nextChapterIndex ;;
    let chapterToFetch := index (availableChapters props) i in
    c <- deref chapterToFetch "value" ;;
    newChapter <- await (fetchChapter (value c) (text c)) ;;
    match newChapter with
    | Some ch =>
        prevChapters <- read chapters ;;
        next <-
          (if (3 <=? List.length prevChapters)%nat then
             anchorChapter <- deref (index prevChapters 1) "id" ;;
             let anchorId := id anchorChapter in
             match chapterOffsetTop dom anchorId with
             | Some offsetTop =>
                 let scrollOffset := scrollY dom - offsetTop in
                 emit (ConsoleLog [LStr "Setting scroll anchor: ID="; LId anchorId;
                                   LStr ", Offset="; LNum scrollOffset;
                                   LStr ", ScrollY="; LNum (scrollY dom);
                                   LStr ", AnchorTop="; LNum offsetTop]) ;;
                 setScrollAnchorInfo (Some (mkAnchor anchorId scrollOffset))
             | None =>
                 emit (ConsoleWarn
                         [LStr "Could not find anchor element for scroll preservation."]) ;;
                 setScrollAnchorInfo None
             end ;;
             ret (skipn 1 prevChapters ++ [ch])
           else
             setScrollAnchorInfo None ;;
             ret (prevChapters ++ [ch])) ;;
        setChapters next ;;
        j <- read nextChapterIndex ;;
        setNextChapterIndex (j + 1)
    | None =>
        setLastChapter true ;;
        setScrollAnchorInfo None
    end ;;
    setFetching false.

Definition handleScroll (A : Arith) (el : option (DOMRect A)) (vp : Viewport A)
           (fetchChapter : Fetcher) (props : ReaderProps) (dom : Dom) : Act unit :=
  isLast <- read lastChapter ;;
  if isLast then ret tt
  else
    let scrollPercentage := calculateScrollPercentage el vp in
    isFetching <- read fetching ;;
    if ltb A (n60 A) scrollPercentage && negb isFetching
    then detached (loadNextChapter fetchChapter props dom)
    else ret tt.

Definition runTask : Act unit -> Dom -> State -> State * list Effect :=
  runTaskWith restoreMicrotask.

Definition advance (fetchChapter : Fetcher) (props : ReaderProps)
           (dom : Dom) (s : State) : State :=
  stateOf (loadNextChapter fetchChapter props dom s).

End Legacy.

(** ** The component wired to [lib/fetch] *)

(** [fetchChapter] when the network answers [net url] to a GET of [url]. *)
Definition fetcherOf (StringToNumber : string -> JSNum) (trim : string -> string)
           (net : string -> Fetch.HttpResult) : Fetcher :=
  fun url title => Fetch.fetchChapter StringToNumber trim url title (net url).

(** ** Vocabulary of the statements *)

(** The scroll percentage as a function of [top], for a fixed viewport and
    element height. *)
Definition pct (A : Arith) (vp : Viewport A) (h t : num A) : num A :=
  Reader.calculateScrollPercentage (Some (mkRect A t h)) vp.

(** The quotient computed by the last branch of
    [calculateScrollPercentage]. *)
Definition ratio (A : Arith) (h t : num A) : num A :=
  mul A (div A (Math_max A (n0 A) (neg A t)) h) (n100 A).

(** [a <= b] holds; a number is ordered when it compares with itself (in
    IEEE 754: it is not NaN); two numbers are equivalent when each is below
    the other (as [0] and [-0] are). *)
Definition le (A : Arith) (a b : num A) : Prop := leb A a b = true.
Definition ord (A : Arith) (a : num A) : Prop := le A a a.
Definition equ (A : Arith) (a b : num A) : Prop := le A a b /\ le A b a.

(** The order-theoretic facts of the arithmetic that the monotonicity of the
    scroll percentage rests on.  [fin] singles out the finite numbers; the
    laws are those of correctly rounded arithmetic (rounding is monotone,
    an overflow gives an infinity, only [0/0], the quotient of infinities
    and operations on NaN give NaN). *)
Unset Implicit Arguments.

Record ArithLaws (A : Arith) (fin : num A -> Prop) : Prop := mkLaws {
  le_trans : forall a b c, le A a b -> le A b c -> le A a c;
  le_total : forall a b, ord A a -> ord A b -> le A a b \/ le A b a;
  le_ord : forall a b, le A a b -> ord A a /\ ord A b;
  ltb_spec : forall a b,
    ltb A a b = true <-> (ord A a /\ ord A b /\ leb A b a = false);
  strictEq_spec : forall a b, strictEq A a b = true <-> equ A a b;
  fin_ord : forall a, fin a -> ord A a;
  fin_n0 : fin (n0 A);
  fin_n100 : fin (n100 A);
  n0_le_n100 : le A (n0 A) (n100 A);
  neg_fin : forall a, fin a -> fin (neg A a);
  neg_antitone : forall a b, le A a b -> le A (neg A b) (neg A a);
  neg_n0 : equ A (neg A (n0 A)) (n0 A);
  max_fin : forall a b, fin a -> fin b -> fin (Math_max A a b);
  max_ub_l : forall a b, ord A a -> ord A b -> le A a (Math_max A a b);
  max_ub_r : forall a b, ord A a -> ord A b -> le A b (Math_max A a b);
  max_lub : forall a b c, le A a c -> le A b c -> le A (Math_max A a b) c;
  min_lb_l : forall a b, ord A a -> ord A b -> le A (Math_min A a b) a;
  min_lb_r : forall a b, ord A a -> ord A b -> le A (Math_min A a b) b;
  min_glb : forall a b c, le A c a -> le A c b -> le A c (Math_min A a b);
  div_ord : forall a h,
    fin a -> fin h -> strictEq A h (n0 A) = false -> ord A (div A a h);
  div_mono : forall a b h,
    fin a -> fin b -> fin h -> ltb A (n0 A) h = true ->
    le A a b -> le A (div A a h) (div A b h);
  div_anti : forall a b h,
    fin a -> fin b -> fin h -> ltb A h (n0 A) = true ->
    le A a b -> le A (div A b h) (div A a h);
  div_n0 : forall h,
    fin h -> strictEq A h (n0 A) = false -> equ A (div A (n0 A) h) (n0 A);
  mul_mono : forall x y, le A x y -> le A (mul A x (n100 A)) (mul A y (n100 A));
  mul_n0 : equ A (mul A (n0 A) (n100 A)) (n0 A)
}.

Set Implicit Arguments.

(** Every rational is finite. *)
Definition everyQ : num exact -> Prop := fun _ => True.

(** The laws as a test on a list of numbers. *)
Definition impb (a b : bool) : bool := negb a || b.

Definition lawsOn (A : Arith) (finb : num A -> bool) (xs : list (num A)) : bool :=
  let le := leb A in
  let ord := fun a => leb A a a in
  let equ := fun a b => leb A a b && leb A b a in
  let z := n0 A in
  let flat := fun h => strictEq A h z in
  finb z && finb (n100 A) && le z (n100 A)
  && equ (neg A z) z && equ (mul A z (n100 A)) z
  && forallb (fun a =>
       impb (finb a) (ord a)
       && impb (finb a) (finb (neg A a))
       && impb (finb a && negb (flat a)) (equ (div A z a) z)
       && forallb (fun b =>
            impb (ord a && ord b) (le a b || le b a)
            && impb (le a b) (ord a && ord b)
            && Bool.eqb (ltb A a b) (ord a && ord b && negb (le b a))
            && Bool.eqb (strictEq A a b) (equ a b)
            && impb (le a b) (le (neg A b) (neg A a))
            && impb (finb a && finb b) (finb (Math_max A a b))
            && impb (ord a && ord b)
                    (le a (Math_max A a b) && le b (Math_max A a b)
                     && le (Math_min A a b) a && le (Math_min A a b) b)
            && impb (finb a && finb b && negb (flat b)) (ord (div A a b))
            && impb (le a b) (le (mul A a (n100 A)) (mul A b (n100 A)))
            && forallb (fun c =>
                 impb (le a b && le b c) (le a c)
                 && impb (le a c && le b c) (le (Math_max A a b) c)
                 && impb (le c a && le c b) (le c (Math_min A a b))
                 && impb (finb a && finb b && finb c && ltb A z c && le a b)
                         (le (div A a c) (div A b c))
                 && impb (finb a && finb b && finb c && ltb A c z && le a b)
                         (le (div A b c) (div A a c))) xs) xs) xs.

Definition samples : list float :=
  [0; -0; 1; -1; 1.8; -1.8; 3; -3; 60; 100; 0.1; 0.3; 503; -301.8; 1e-320;
   5e-324; -5e-324; 1.7976931348623157e308; -1.7976931348623157e308; 1e300;
   PrimFloat.infinity; PrimFloat.neg_infinity; PrimFloat.nan]%float.

(** Instances of the two built-in parameters, for concrete runs:
    [Number] on strings of ASCII decimal digits (and the empty string), and
    [trim] for ASCII white space. *)
Definition digitOf (c : ascii) : option Z :=
  let n := Z.of_N (N_of_ascii c) in
  if (48 <=? n)%Z && (n <=? 57)%Z then Some (n - 48)%Z else None.

Fixpoint digitsValue (acc : Z) (s : string) : option Z :=
  match s with
  | EmptyString => Some acc
  | String c rest =>
      match digitOf c with
      | Some d => digitsValue (10 * acc + d)%Z rest
      | None => None
      end
  end.

Definition decimalToNumber (s : string) : JSNum :=
  match s with
  | EmptyString => Num 0
  | _ =>
      match digitsValue 0 s with
      | Some z => Num (inject_Z z)
      | None => NaN
      end
  end.

Definition isSpace (c : ascii) : bool :=
  match N_of_ascii c with
  | 9%N | 10%N | 11%N | 12%N | 13%N | 32%N => true
  | _ => false
  end.

Fixpoint trimStart (s : string) : string :=
  match s with
  | EmptyString => EmptyString
  | String c rest => if isSpace c then trimStart rest else s
  end.

Fixpoint trimEnd (s : string) : string :=
  match s with
  | EmptyString => EmptyString
  | String c rest =>
      match trimEnd rest with
      | EmptyString => if isSpace c then EmptyString else String c EmptyString
      | kept => String c kept
      end
  end.

Definition asciiTrim (s : string) : string := trimEnd (trimStart s).

(** The anchor recorded when the window [prev] is about to lose its first
    element: the element at index 1, if the page has its container. *)
Definition anchorOf (dom : Dom) (prev : list ChapterData) : option Anchor :=
  match nth_error prev 1 with
  | Some c =>
      match chapterOffsetTop dom (id c) with
      | Some offsetTop => Some (mkAnchor (id c) (scrollY dom - offsetTop))
      | None => None
      end
  | None => None
  end.

Definition anchorWarning : Effect :=
  ConsoleWarn [LStr "Could not find anchor element for scroll preservation."].

Definition fetchError (e : JSError) : Effect :=
  ConsoleError [LStr "Failed to fetch next chapter:"; LErr e].

(** A fetch that succeeds with the record [c]. *)
Definition serve (c : ChapterData) : Fetcher :=
  fun url _ => ([HttpGet url], Returned (Some c)).

(** Signal updates, for stating results. *)
Definition withAnchor (a : option Anchor) (s : State) : State :=
  mkState (nextChapterIndex s) (chapters s) (lastChapter s) (fetching s) a.

Definition withFetching (b : bool) (s : State) : State :=
  mkState (nextChapterIndex s) (chapters s) (lastChapter s) b (scrollAnchorInfo s).

Definition withLastChapter (b : bool) (s : State) : State :=
  mkState (nextChapterIndex s) (chapters s) b (fetching s) (scrollAnchorInfo s).

(** A concrete session: a table of contents of five chapters, the reader
    opened on the first one. *)
Definition chapterUrl (n : Z) : string :=
  match n with
  | 0%Z => "https://cenele.com/novel/0"
  | 1%Z => "https://cenele.com/novel/1"
  | 2%Z => "https://cenele.com/novel/2"
  | 3%Z => "https://cenele.com/novel/3"
  | _ => "https://cenele.com/novel/4"
  end.

Definition tocEntry (n : Z) : Chapter :=
  mkChapter (Num (inject_Z n)) (chapterUrl n) "Chapter" (n =? 0)%Z.

Definition record (n : Z) : ChapterData :=
  mkChapterData (Num (inject_Z (100 + n))) (chapterUrl n) "Chapter" "<p>text</p>".

Definition fiveChapters : ReaderProps :=
  mkReaderProps [tocEntry 0; tocEntry 1; tocEntry 2; tocEntry 3; tocEntry 4]
                "https://cenele.com/novel" 0 (record 0).

(** A page on which every chapter container is found, 1000 pixels apart,
    scrolled to 2500. *)
Definition page : Dom :=
  mkDom 2500 (fun n => match n with
                       | Num q => Some (Qmult 1000 (q - 100))
                       | NaN => None
                       end).

(** A network on which every chapter page exists. *)
Definition chapterPage (n : string) : Fetch.Document :=
  Fetch.mkDocument
    (Some (Fetch.mkElement [("data-chapter"%string, n)] "" ""))
    None
    (Some (Fetch.mkElement [] " Chapter " "Chapter"))
    (Some (Fetch.mkElement [] "text" "<p>text</p>"))
    None None.

Definition healthy : string -> Fetch.HttpResult :=
  fun _ => Fetch.Response 200 (Some (chapterPage "101")).

(** A network that answers every request with status 500. *)
Definition serverError : string -> Fetch.HttpResult :=
  fun _ => Fetch.Response 500 None.

(** A network that is down. *)
Definition offline : string -> Fetch.HttpResult :=
  fun _ => Fetch.NetworkFailure.

(** The window length invariant. *)
Definition windowBounded (s : State) : Prop :=
  (1 <= List.length (chapters s) <= 3)%nat.

(** The last [n] elements of a list. *)
Definition lastn {A : Type} (n : nat) (l : list A) : list A :=
  skipn (List.length l - n) l.

(** A run of advance calls that all succeed: each item is the record the
    fetch returns, the layout seen by the continuation and the layout seen
    by the microtasks. *)
Definition serveAll (calls : list (ChapterData * Dom * Dom)) : list Reader.Event :=
  map (fun call => match call with
                   | (r, dom, domAfter) => Reader.AdvanceCall (serve r) dom domAfter
                   end) calls.

Definition isHttpGet (e : Effect) : bool :=
  match e with HttpGet _ => true | _ => false end.

Definition isNavigate (e : Effect) : bool :=
  match e with Navigate _ => true | _ => false end.

Definition isScrollTo (e : Effect) : bool :=
  match e with ScrollTo _ _ => true | _ => false end.

(** The signals after [setChapters cs] and the microtask it queued. *)
Definition mutated (cs : list ChapterData) (s : State) : State :=
  mkState (nextChapterIndex s) cs (lastChapter s) (fetching s) None.

(** The event loop of the first version of the component. *)
Definition legacyStep (props : ReaderProps) (ev : Reader.Event) (s : State)
  : State * list Effect :=
  match ev with
  | Reader.ScrollEvent el vp fetchChapter dom domAfter =>
      Legacy.runTask (Legacy.handleScroll el vp fetchChapter props dom) domAfter s
  | Reader.AdvanceCall fetchChapter dom domAfter =>
      Legacy.runTask (detached (Legacy.loadNextChapter fetchChapter props dom)) domAfter s
  end.

Fixpoint legacyRun (props : ReaderProps) (evs : list Reader.Event) (s : State) : State :=
  match evs with
  | [] => s
  | ev :: rest => legacyRun props rest (fst (legacyStep props ev s))
  end.

(** What holds of the signals between two events of a session whose cursor
    started at [c0]: nothing in flight, no pending anchor, the cursor
    between its start and the end of the table of contents, and a window
    length fixed by the number of chapters fetched so far. *)
Definition settled (props : ReaderProps) (c0 : Z) (s : State) : Prop :=
  fetching s = false /\
  scrollAnchorInfo s = None /\
  (c0 <= nextChapterIndex s
   <= Z.max c0 (Z.of_nat (List.length (availableChapters props))))%Z /\
  Z.of_nat (List.length (chapters s)) = Z.min 3 (1 + (nextChapterIndex s - c0))%Z.

(** * Properties *)

(** ** Scroll trigger *)

Lemma Qle_bool_false (x y : Q) : (~ x <= y)%Q -> Qle_bool x y = false.
Proof.
  intros H. destruct (Qle_bool x y) eqn:E; [|reflexivity].
  apply Qle_bool_iff in E. contradiction.
Qed.

Lemma Qeq_bool_false (x y : Q) : (~ x == y)%Q -> Qeq_bool x y = false.
Proof.
  intros H. destruct (Qeq_bool x y) eqn:E; [|reflexivity].
  apply Qeq_bool_iff in E. contradiction.
Qed.

Unset Implicit Arguments.

Section ScrollPercentage.

Variable A : Arith.
Variable vp : Viewport A.
Variable h : num A.

Lemma pct_above (t : num A) :
  leb A t (neg A h) = true -> pct vp h t = n100 A.
Proof.
  intros H. unfold pct, Reader.calculateScrollPercentage. cbn [top height].
  rewrite H. reflexivity.
Qed.

Lemma pct_below (t : num A) :
  leb A t (neg A h) = false -> leb A (Reader.windowHeight vp) t = true ->
  pct vp h t = n0 A.
Proof.
  intros H1 H2. unfold pct, Reader.calculateScrollPercentage. cbn [top height].
  rewrite H1, H2. reflexivity.
Qed.

Lemma pct_flat (t : num A) :
  leb A t (neg A h) = false -> leb A (Reader.windowHeight vp) t = false ->
  strictEq A h (n0 A) = true -> pct vp h t = n0 A.
Proof.
  intros H1 H2 H3. unfold pct, Reader.calculateScrollPercentage. cbn [top height].
  rewrite H1, H2. cbv zeta. rewrite H3. reflexivity.
Qed.

Lemma pct_partial (t : num A) :
  leb A t (neg A h) = false -> leb A (Reader.windowHeight vp) t = false ->
  strictEq A h (n0 A) = false ->
  pct vp h t = Math_min A (n100 A) (ratio A h t).
Proof.
  intros H1 H2 H3. unfold pct, Reader.calculateScrollPercentage. cbn [top height].
  rewrite H1, H2. cbv zeta. rewrite H3. reflexivity.
Qed.

Variable fin : num A -> Prop.
Hypothesis L : ArithLaws A fin.

Lemma ord_n0 : ord A (n0 A).
Proof. apply (fin_ord A fin L), (fin_n0 A fin L). Qed.

Lemma ord_n100 : ord A (n100 A).
Proof. apply (fin_ord A fin L), (fin_n100 A fin L). Qed.

Lemma not_leb_le (a b : num A) :
  ord A a -> ord A b -> leb A a b = false -> le A b a.
Proof.
  intros Ha Hb H. destruct (le_total A fin L a b Ha Hb) as [C|C]; [|exact C].
  unfold le in C. congruence.
Qed.

Lemma ltb_le (a b : num A) : ltb A a b = true -> le A a b.
Proof.
  intros H. apply (ltb_spec A fin L) in H. destruct H as (Ha & Hb & H).
  apply not_leb_le; assumption.
Qed.

Lemma sign_cases :
  fin h -> strictEq A h (n0 A) = false ->
  ltb A (n0 A) h = true \/ ltb A h (n0 A) = true.
Proof.
  intros Fh E. pose proof (fin_ord A fin L h Fh) as Oh. pose proof ord_n0 as O0.
  destruct (leb A h (n0 A)) eqn:E1.
  - right. apply (ltb_spec A fin L). split; [exact Oh|]. split; [exact O0|].
    destruct (leb A (n0 A) h) eqn:E2; [|reflexivity].
    assert (C : strictEq A h (n0 A) = true)
      by (apply (strictEq_spec A fin L); split; assumption).
    congruence.
  - left. apply (ltb_spec A fin L). split; [exact O0|]. split; [exact Oh|]. exact E1.
Qed.

Lemma scrolled_fin (t : num A) : fin t -> fin (Math_max A (n0 A) (neg A t)).
Proof. intros Ft. apply (max_fin A fin L); [apply (fin_n0 A fin L) | apply (neg_fin A fin L), Ft]. Qed.

Lemma scrolled_nonneg (t : num A) : fin t -> le A (n0 A) (Math_max A (n0 A) (neg A t)).
Proof.
  intros Ft. apply (max_ub_l A fin L); [apply ord_n0 | apply (fin_ord A fin L), (neg_fin A fin L), Ft].
Qed.

Lemma scrolled_mono (t1 t2 : num A) :
  fin t1 -> fin t2 -> le A t1 t2 ->
  le A (Math_max A (n0 A) (neg A t2)) (Math_max A (n0 A) (neg A t1)).
Proof.
  intros F1 F2 H. apply (max_lub A fin L).
  - apply scrolled_nonneg, F1.
  - apply (le_trans A fin L) with (neg A t1).
    + apply (neg_antitone A fin L), H.
    + apply (max_ub_r A fin L); [apply ord_n0 | apply (fin_ord A fin L), (neg_fin A fin L), F1].
Qed.

(** Past the first test, a negative height forces [top >= 0]. *)
Lemma scrolled_zero (t : num A) :
  fin t -> fin h -> leb A t (neg A h) = false -> ltb A h (n0 A) = true ->
  le A (Math_max A (n0 A) (neg A t)) (n0 A).
Proof.
  intros Ft Fh H1 Hn. apply (max_lub A fin L); [apply ord_n0|].
  assert (Ht : le A (n0 A) t).
  { apply (le_trans A fin L) with (neg A (n0 A)); [apply (neg_n0 A fin L)|].
    apply (le_trans A fin L) with (neg A h).
    - apply (neg_antitone A fin L), ltb_le, Hn.
    - apply not_leb_le; [apply (fin_ord A fin L), Ft | apply (fin_ord A fin L), (neg_fin A fin L), Fh | exact H1]. }
  apply (le_trans A fin L) with (neg A (n0 A)); [apply (neg_antitone A fin L), Ht | apply (neg_n0 A fin L)].
Qed.

Lemma quotient_mono (t1 t2 : num A) :
  fin t1 -> fin t2 -> fin h ->
  leb A t1 (neg A h) = false -> leb A t2 (neg A h) = false ->
  strictEq A h (n0 A) = false -> le A t1 t2 ->
  le A (ratio A h t2) (ratio A h t1).
Proof.
  intros F1 F2 Fh H1 H2 E H. unfold ratio. apply (mul_mono A fin L).
  destruct (sign_cases Fh E) as [Hp|Hn].
  - apply (div_mono A fin L); try assumption; try (apply scrolled_fin; assumption).
    apply scrolled_mono; assumption.
  - apply (div_anti A fin L); try assumption; try (apply scrolled_fin; assumption).
    apply (le_trans A fin L) with (n0 A).
    + apply scrolled_zero; assumption.
    + apply scrolled_nonneg; assumption.
Qed.

Lemma ratio_ord (t : num A) :
  fin t -> fin h -> strictEq A h (n0 A) = false -> ord A (ratio A h t).
Proof.
  intros Ft Fh E. unfold ratio. apply (mul_mono A fin L).
  apply (div_ord A fin L); [apply scrolled_fin, Ft | exact Fh | exact E].
Qed.

Lemma ratio_nonneg (t : num A) :
  fin t -> fin h -> leb A t (neg A h) = false -> strictEq A h (n0 A) = false ->
  le A (n0 A) (ratio A h t).
Proof.
  intros Ft Fh H1 E. unfold ratio.
  apply (le_trans A fin L) with (mul A (n0 A) (n100 A)); [apply (mul_n0 A fin L)|].
  apply (mul_mono A fin L).
  apply (le_trans A fin L) with (div A (n0 A) h); [apply (div_n0 A fin L); assumption|].
  destruct (sign_cases Fh E) as [Hp|Hn].
  - apply (div_mono A fin L); try assumption;
      [apply (fin_n0 A fin L) | apply scrolled_fin, Ft | apply scrolled_nonneg, Ft].
  - apply (div_anti A fin L); try assumption;
      [apply scrolled_fin, Ft | apply (fin_n0 A fin L) | apply scrolled_zero; assumption].
Qed.

Lemma pct_range (t : num A) :
  fin t -> fin h -> le A (n0 A) (pct vp h t) /\ le A (pct vp h t) (n100 A).
Proof.
  intros Ft Fh.
  destruct (leb A t (neg A h)) eqn:H1.
  - rewrite (pct_above _ H1). split; [apply (n0_le_n100 A fin L) | apply ord_n100].
  - destruct (leb A (Reader.windowHeight vp) t) eqn:H2.
    + rewrite (pct_below _ H1 H2). split; [apply ord_n0 | apply (n0_le_n100 A fin L)].
    + destruct (strictEq A h (n0 A)) eqn:H3.
      * rewrite (pct_flat _ H1 H2 H3). split; [apply ord_n0 | apply (n0_le_n100 A fin L)].
      * rewrite (pct_partial _ H1 H2 H3). split.
        -- apply (min_glb A fin L); [apply (n0_le_n100 A fin L) | apply ratio_nonneg; assumption].
        -- apply (min_lb_l A fin L); [apply ord_n100 | apply ratio_ord; assumption].
Qed.

Lemma pct_antitone (t1 t2 : num A) :
  fin t1 -> fin t2 -> fin h -> le A t1 t2 -> le A (pct vp h t2) (pct vp h t1).
Proof.
  intros F1 F2 Fh H12.
  destruct (leb A t1 (neg A h)) eqn:H1.
  - rewrite (pct_above _ H1). apply pct_range; assumption.
  - assert (H1' : leb A t2 (neg A h) = false).
    { destruct (leb A t2 (neg A h)) eqn:C; [|reflexivity].
      pose proof (le_trans A fin L _ _ _ H12 C) as D. unfold le in D. congruence. }
    destruct (leb A (Reader.windowHeight vp) t2) eqn:H2'.
    + rewrite (pct_below _ H1' H2'). apply pct_range; assumption.
    + assert (H2 : leb A (Reader.windowHeight vp) t1 = false).
      { destruct (leb A (Reader.windowHeight vp) t1) eqn:C; [|reflexivity].
        pose proof (le_trans A fin L _ _ _ C H12) as D. unfold le in D. congruence. }
      destruct (strictEq A h (n0 A)) eqn:H3.
      * rewrite (pct_flat _ H1 H2 H3), (pct_flat _ H1' H2' H3). apply ord_n0.
      * rewrite (pct_partial _ H1 H2 H3), (pct_partial _ H1' H2' H3).
        apply (min_glb A fin L).
        -- apply (min_lb_l A fin L); [apply ord_n100 | apply ratio_ord; assumption].
        -- apply (le_trans A fin L) with (ratio A h t2).
           ++ apply (min_lb_r A fin L); [apply ord_n100 | apply ratio_ord; assumption].
           ++ apply quotient_mono; assumption.
Qed.

End ScrollPercentage.

Set Implicit Arguments.

Example decimalToNumber_42 : decimalToNumber "42" = Num 42.
Proof. reflexivity. Qed.

Example asciiTrim_title : asciiTrim "  Chapter 7 " = "Chapter 7"%string.
Proof. reflexivity. Qed.

(** Exact rational arithmetic satisfies the laws. *)
Lemma exact_le (a b : Q) : le exact a b <-> (a <= b)%Q.
Proof. unfold le. cbn. apply Qle_bool_iff. Qed.

Lemma exact_ltb (a b : Q) : ltb exact a b = true <-> (a < b)%Q.
Proof.
  cbn. rewrite negb_true_iff. split.
  - intros H. apply Qnot_le_lt. intros C. apply Qle_bool_iff in C. congruence.
  - intros H. apply Qle_bool_false. apply Qlt_not_le, H.
Qed.

Lemma exact_div_mono (a b h : Q) : (0 < h -> a <= b -> a / h <= b / h)%Q.
Proof.
  intros Hh Hab. unfold Qdiv. apply Qmult_le_compat_r; [exact Hab|].
  apply Qinv_le_0_compat, Qlt_le_weak, Hh.
Qed.

Lemma exact_laws : ArithLaws exact everyQ.
Proof.
  constructor; unfold everyQ, ord, equ; intros;
    repeat match goal with
           | H : le exact _ _ |- _ => apply exact_le in H
           | H : ltb exact _ _ = true |- _ => apply exact_ltb in H
           | H : _ /\ _ |- _ => destruct H
           end;
    try exact I.
  - apply exact_le. eapply Qle_trans; eassumption.
  - destruct (Qlt_le_dec a b) as [C|C].
    + left. apply exact_le, Qlt_le_weak, C.
    + right. apply exact_le, C.
  - split; apply exact_le, Qle_refl.
  - rewrite exact_ltb. split.
    + intros C. split; [apply exact_le, Qle_refl|].
      split; [apply exact_le, Qle_refl|].
      apply Qle_bool_false, Qlt_not_le, C.
    + intros (_ & _ & C). apply Qnot_le_lt. intros D.
      apply Qle_bool_iff in D. cbn in C. congruence.
  - cbn -[Qeq_bool]. rewrite Qeq_bool_iff. rewrite !exact_le. split.
    + intros E. rewrite E. split; apply Qle_refl.
    + intros (C & D). apply Qle_antisym; assumption.
  - apply exact_le, Qle_refl.
  - apply exact_le. discriminate.
  - apply exact_le. cbn. apply Qopp_le_compat. assumption.
  - split; apply exact_le; discriminate.
  - apply exact_le. cbn. apply Q.le_max_l.
  - apply exact_le. cbn. apply Q.le_max_r.
  - apply exact_le. cbn. apply Q.max_lub; assumption.
  - apply exact_le. cbn. apply Q.le_min_l.
  - apply exact_le. cbn. apply Q.le_min_r.
  - apply exact_le. cbn. apply Q.min_glb; assumption.
  - apply exact_le, Qle_refl.
  - apply exact_le. cbn. apply exact_div_mono; assumption.
  - apply exact_le. cbn -[Qdiv].
    assert (E : (h < 0)%Q) by assumption.
    setoid_replace (b / h)%Q with ((- b) / (- h))%Q by (field; lra).
    setoid_replace (a / h)%Q with ((- a) / (- h))%Q by (field; lra).
    apply exact_div_mono; lra.
  - cbn -[Qdiv]. assert (E : (0 / h == 0)%Q) by (unfold Qdiv; apply Qmult_0_l).
    split; apply exact_le; rewrite E; apply Qle_refl.
  - apply exact_le. cbn. apply Qmult_le_compat_r; [assumption | discriminate].
  - split; apply exact_le; discriminate.
Qed.

(** In exact arithmetic the quotient of the last branch is
    [100 * max(0, -top) / height]. *)
Lemma ratio_exact (h t : Q) :
  (~ h == 0 -> ratio exact h t == 100 * Qmax 0 (- t) / h)%Q.
Proof. intros H. unfold ratio. cbn -[Qmax Qdiv Qmult]. field. exact H. Qed.

Example pct_half :
  (pct (mkViewport exact 800 800) 1000 (-500) == 50)%Q.
Proof. reflexivity. Qed.

Example pct_zero_height_above :
  (pct (mkViewport exact 800 800) 0 (-5) == 100)%Q.
Proof. reflexivity. Qed.

(** In IEEE 754 arithmetic, 1.8 pixels into a chapter 3 pixels high is
    exactly 60 percent, which is not above the trigger. *)
Example pct_ieee_sixty :
  (pct (mkViewport ieee 800 800) 3 (-1.8) = 60)%float /\
  ltb ieee (Reader.SCROLL_TRIGGER_PERCENTAGE ieee)
      (pct (mkViewport ieee 800 800) 3 (-1.8))%float = false.
Proof. split; reflexivity. Qed.

(** The laws hold of IEEE 754 arithmetic on a sample of doubles that
    includes both zeros, subnormals, the largest finite doubles, the
    infinities and NaN. *)
Example ieee_laws_on_samples : lawsOn ieee PrimFloat.is_finite samples = true.
Proof. vm_compute. reflexivity. Qed.

Example pct_ieee_third :
  (pct (mkViewport ieee 800 800) 3 (-1) = 33.33333333333333)%float.
Proof. reflexivity. Qed.

Example pct_ieee_NaN_height :
  isNaN (pct (mkViewport ieee 800 800) PrimFloat.nan (-1))%float = true.
Proof. reflexivity. Qed.



(** ** Page parser and remote fetcher *)

Lemma copyChapterData_same (data : ChapterData) : copyChapterData data = data.
Proof. destruct data; reflexivity. Qed.

Section FetchProperties.

Variable StringToNumber : string -> JSNum.
Variable trim : string -> string.

Lemma ok_range (status : Z) :
  Fetch.ok status = true <-> (200 <= status <= 299)%Z.
Proof. unfold Fetch.ok. rewrite andb_true_iff, !Z.leb_le. tauto. Qed.

Lemma ok_false_404 : Fetch.ok 404 = false.
Proof. reflexivity. Qed.

Lemma ok_false_403 : Fetch.ok 403 = false.
Proof. reflexivity. Qed.

Lemma extract_uri (doc : Fetch.Document) (u : string) :
  uri (snd (Fetch.extractChapterData StringToNumber trim doc u)) = u.
Proof. reflexivity. Qed.

Lemma extract_id (doc : Fetch.Document) (u : string) :
  id (snd (Fetch.extractChapterData StringToNumber trim doc u))
  = Fetch.chapterIdOf StringToNumber doc.
Proof. reflexivity. Qed.

Lemma extract_logs (doc : Fetch.Document) (u : string) :
  fst (Fetch.extractChapterData StringToNumber trim doc u)
  = if includes "Error: Chapter content not found." (Fetch.contentOf doc)
    then [Fetch.contentWarning] else [].
Proof. reflexivity. Qed.

Lemma idWarning_not_contentWarning : Fetch.idWarning <> Fetch.contentWarning.
Proof. discriminate. Qed.

(** The three values for which the conditional takes the fallback. *)
Lemma truthy_attr_false (el : option Fetch.Element) (name : string) :
  truthy (Fetch.optGetAttribute el name) = false <->
  Fetch.optGetAttribute el name = VUndefined
  \/ Fetch.optGetAttribute el name = VNull
  \/ Fetch.optGetAttribute el name = VStr "".
Proof.
  unfold Fetch.optGetAttribute.
  destruct el as [e|]; [destruct (Fetch.getAttribute e name) as [s|]|]; simpl.
  - destruct s as [|c r]; simpl; split; intros H; auto.
    + discriminate H.
    + destruct H as [H|[H|H]]; discriminate H.
  - tauto.
  - tauto.
Qed.

Lemma fetch_non_ok (url title : string) (status : Z) (body : option Fetch.Document) :
  Fetch.ok status = false ->
  Fetch.fetchChapter StringToNumber trim url title (Fetch.Response status body)
  = (HttpGet url
       :: (if (status =? 404)%Z then [] else
             if (status =? 403)%Z then [Navigate url] else [])
       ++ [Fetch.fetchFailed title],
     Returned None).
Proof.
  intros H. unfold Fetch.fetchChapter. rewrite H.
  destruct (status =? 404)%Z; [reflexivity|].
  destruct (status =? 403)%Z; reflexivity.
Qed.

End FetchProperties.

(** The identifier extracted by the page parser is never
    null: it is [Number] applied to the value of one attribute lookup, so
    the [chapterId === null] diagnostic is never logged and the chapter is
    returned whatever the identifier.  The identifier is [NaN] when the
    chosen attribute string is not numeric, or when the bookmark attribute
    is absent or empty and the current-chapter element is missing; it is 0
    (not [NaN]) when the bookmark attribute is absent or empty and the
    current-chapter element exists without a [data-id] attribute. *)
Lemma chapter_id_never_null
        (StringToNumber : string -> JSNum) (trim : string -> string)
        (doc : Fetch.Document) (u : string) :
  let result := Fetch.extractChapterData StringToNumber trim doc u in
  let chapterId := id (snd result) in
  let bookmarkAttr := Fetch.optGetAttribute (Fetch.bookmarkButton doc) "data-chapter" in
  let currentAttr := Fetch.optGetAttribute (Fetch.currentChap doc) "data-id" in
  strict_eq_null (VNum chapterId) = false /\
  ~ In Fetch.idWarning (fst result) /\
  (chapterId = Fetch.Number StringToNumber bookmarkAttr
   \/ chapterId = Fetch.Number StringToNumber currentAttr) /\
  (forall s, bookmarkAttr = VStr s -> s <> ""%string -> chapterId = StringToNumber s) /\
  (truthy bookmarkAttr = false -> Fetch.currentChap doc = None -> chapterId = NaN) /\
  (truthy bookmarkAttr = false -> currentAttr = VNull -> chapterId = Num 0) /\
  (forall s, truthy bookmarkAttr = false -> currentAttr = VStr s ->
             chapterId = StringToNumber s).
Proof.
  cbv zeta. rewrite extract_id, extract_logs. unfold Fetch.chapterIdOf.
  split; [reflexivity|].
  split.
  { destruct (includes _ _); simpl; [|tauto].
    intros [H|[]]. symmetry in H. revert H. apply idWarning_not_contentWarning. }
  split.
  { destruct (truthy _); [left|right]; reflexivity. }
  split.
  { intros s Hs Hne. rewrite Hs. simpl.
    destruct s as [|c r]; [contradiction Hne; reflexivity | reflexivity]. }
  split.
  { intros Hf Hc. rewrite Hf, Hc. reflexivity. }
  split.
  { intros Hf Hc. rewrite Hf, Hc. reflexivity. }
  intros s Hf Hc. rewrite Hf, Hc. reflexivity.
Qed.

(** C9.  On a page with no bookmark button whose current-chapter element
    has no [data-id] attribute, both attributes are absent, yet the parser
    returns the identifier 0 (it is [Number(null)]), not [NaN], and logs no
    diagnostic for the identifier: the comment "handle missing attribute"
    and the [chapterId === null] test show that a missing identifier was
    meant to be detected.  On the sibling page, where the current-chapter
    element itself is missing, the identifier is [NaN]
    ([Number(undefined)]). *)
Theorem chapter_id_missing_attribute
        (StringToNumber : string -> JSNum) (trim : string -> string) (u : string) :
  let currentChapEl :=
    Fetch.mkElement [("class"%string, "active"%string)] "Chapter 7" "Chapter 7" in
  let doc := Fetch.mkDocument None (Some currentChapEl) None None None None in
  let sibling := Fetch.mkDocument None None None None None None in
  let result := Fetch.extractChapterData StringToNumber trim doc u in
  Fetch.optGetAttribute (Fetch.bookmarkButton doc) "data-chapter" = VUndefined /\
  Fetch.optGetAttribute (Fetch.currentChap doc) "data-id" = VNull /\
  id (snd result) = Num 0 /\
  id (snd result) <> NaN /\
  ~ In Fetch.idWarning (fst result) /\
  id (snd (Fetch.extractChapterData StringToNumber trim sibling u)) = NaN.
Proof.
  cbv zeta.
  split; [reflexivity|]. split; [reflexivity|]. split; [reflexivity|].
  split; [discriminate|]. split; [|reflexivity].
  cbn. intros [H|[]]. discriminate H.
Qed.

(** C5 (as amended).  For every locator, [fetchChapter] returns the parsed
    chapter record on a 2xx response whose body can be read; returns null
    on 404; navigates the browser to the locator's URL and returns null on
    403; logs and returns null on any other status; so it never throws for
    an HTTP status outside 2xx.  On a network-level failure it does not log
    and does not return null: the rejection of [fetch] propagates to the
    caller, and so does a failure to read a 2xx body. *)
Theorem fetchChapter_outcomes
        (StringToNumber : string -> JSNum) (trim : string -> string)
        (url title : string) :
  let fetchChapter := Fetch.fetchChapter StringToNumber trim url title in
  let parse := Fetch.extractChapterData StringToNumber trim in
  (forall status doc, (200 <= status <= 299)%Z ->
     snd (fetchChapter (Fetch.Response status (Some doc)))
     = Returned (Some (snd (parse doc url)))
     /\ fst (fetchChapter (Fetch.Response status (Some doc)))
        = HttpGet url :: fst (parse doc url)) /\
  (forall body,
     fetchChapter (Fetch.Response 404 body)
     = ([HttpGet url; Fetch.fetchFailed title], Returned None)) /\
  (forall body,
     fetchChapter (Fetch.Response 403 body)
     = ([HttpGet url; Navigate url; Fetch.fetchFailed title], Returned None)) /\
  (forall status body,
     ~ (200 <= status <= 299)%Z -> status <> 404%Z -> status <> 403%Z ->
     fetchChapter (Fetch.Response status body)
     = ([HttpGet url; Fetch.fetchFailed title], Returned None)) /\
  (forall status body,
     ~ (200 <= status <= 299)%Z ->
     snd (fetchChapter (Fetch.Response status body)) = Returned None
     /\ In (Fetch.fetchFailed title) (fst (fetchChapter (Fetch.Response status body)))) /\
  fetchChapter Fetch.NetworkFailure = ([HttpGet url], Threw NetworkError) /\
  (forall status, (200 <= status <= 299)%Z ->
     fetchChapter (Fetch.Response status None) = ([HttpGet url], Threw BodyError)).
Proof.
  cbv zeta. repeat split.
  - apply ok_range in H. unfold Fetch.fetchChapter. rewrite H.
    destruct (Fetch.extractChapterData _ _ _ _) as [logs data]. simpl.
    rewrite copyChapterData_same. reflexivity.
  - apply ok_range in H. unfold Fetch.fetchChapter. rewrite H.
    destruct (Fetch.extractChapterData _ _ _ _) as [logs data]. reflexivity.
  - intros status body Hok H404 H403.
    rewrite <- ok_range in Hok. apply not_true_is_false in Hok.
    rewrite fetch_non_ok by exact Hok.
    apply Z.eqb_neq in H404, H403. rewrite H404, H403. reflexivity.
  - rewrite <- ok_range in H. apply not_true_is_false in H.
    rewrite fetch_non_ok by exact H. reflexivity.
  - rewrite <- ok_range in H. apply not_true_is_false in H.
    rewrite fetch_non_ok by exact H.
    right. apply in_or_app. right. left. reflexivity.
  - intros status H. apply ok_range in H.
    unfold Fetch.fetchChapter. rewrite H. reflexivity.
Qed.

(** C5 as stated fails: on a network-level failure [fetchChapter] neither
    logs nor returns null; its promise rejects. *)
Lemma fetchChapter_network_failure_counterexample :
  let r := Fetch.fetchChapter decimalToNumber asciiTrim
             "https://cenele.com/novel/chapter-2" "Chapter 2" Fetch.NetworkFailure in
  snd r = Threw NetworkError /\
  snd r <> Returned None /\
  ~ In (Fetch.fetchFailed "Chapter 2") (fst r).
Proof.
  cbv zeta. simpl. repeat split.
  - discriminate.
  - intros [H|[]]. discriminate H.
Qed.

(** ** Chapter window manager *)

Unset Implicit Arguments.

Lemma index_Some_range {A : Type} (arr : list A) (i : Z) (x : A) :
  index arr i = Some x -> (0 <= i < Z.of_nat (List.length arr))%Z.
Proof.
  unfold index. destruct (Z.ltb_spec i 0) as [Hneg|Hpos]; [discriminate|].
  intros H.
  assert (Hlt : (Z.to_nat i < List.length arr)%nat)
    by (apply nth_error_Some; rewrite H; discriminate).
  lia.
Qed.

Lemma index_range_Some {A : Type} (arr : list A) (i : Z) :
  (0 <= i < Z.of_nat (List.length arr))%Z -> exists x, index arr i = Some x.
Proof.
  intros H. unfold index. destruct (Z.ltb_spec i 0) as [Hneg|Hpos]; [lia|].
  destruct (nth_error arr (Z.to_nat i)) as [x|] eqn:E; [exists x; reflexivity|].
  apply nth_error_None in E. lia.
Qed.

Lemma index_out_of_range {A : Type} (arr : list A) (i : Z) :
  ~ (0 <= i < Z.of_nat (List.length arr))%Z -> index arr i = None.
Proof.
  intros H. destruct (index arr i) as [x|] eqn:E; [|reflexivity].
  apply index_Some_range in E. contradiction.
Qed.

(** The range guard of the refactored [loadNextChapter]. *)
Lemma range_guard (i len : Z) :
  ((i =? len) || (i >? len) || (i <? 0))%Z = false <-> (0 <= i < len)%Z.
Proof. rewrite !orb_false_iff, Z.eqb_neq, Z.gtb_ltb, !Z.ltb_ge. lia. Qed.

Ltac signals :=
  cbn [nextChapterIndex chapters lastChapter fetching scrollAnchorInfo] in *.

Ltac run_act :=
  cbn -[Reader.updateChapters Z.eqb Z.gtb Z.ltb Z.add index Z.of_nat Nat.leb
        List.length skipn app Qminus Qplus].

Lemma updateChapters_append (dom : Dom) (ch : ChapterData) (s : State) :
  (List.length (chapters s) < 3)%nat ->
  Reader.updateChapters dom ch s
  = (Returned tt,
     mkState (nextChapterIndex s) (chapters s ++ [ch]) (lastChapter s) (fetching s) None,
     []).
Proof.
  intros H. destruct s as [i cs l f a]. signals.
  destruct cs as [|c0 [|c1 [|c2 rest]]]; cbn [List.length] in H; try lia; reflexivity.
Qed.

Lemma updateChapters_evict (dom : Dom) (ch : ChapterData) (s : State) :
  (3 <= List.length (chapters s))%nat ->
  Reader.updateChapters dom ch s
  = (Returned tt,
     mkState (nextChapterIndex s) (skipn 1 (chapters s) ++ [ch]) (lastChapter s)
             (fetching s) (anchorOf dom (chapters s)),
     match anchorOf dom (chapters s) with
     | Some a => [QueueMicrotask a]
     | None => [anchorWarning]
     end).
Proof.
  intros H. destruct s as [i cs l f a]. signals.
  destruct cs as [|c0 [|c1 [|c2 rest]]]; cbn [List.length] in H; try lia.
  unfold anchorOf. cbn [nth_error].
  unfold Reader.updateChapters, bind, read. cbn [chapters List.length Nat.leb].
  change (index (c0 :: c1 :: c2 :: rest) 1) with (Some c1).
  destruct (chapterOffsetTop dom (id c1)) as [t|] eqn:E; cbn; rewrite E; reflexivity.
Qed.

(** A call made while another one is waiting, or after exhaustion, does
    nothing. *)
Lemma loadNextChapter_reentrant (f : Fetcher) (props : ReaderProps) (dom : Dom)
      (s : State) :
  fetching s = true \/ lastChapter s = true ->
  Reader.loadNextChapter f props dom s = (Returned tt, s, []).
Proof.
  intros H. unfold Reader.loadNextChapter, bind, read.
  destruct H as [H|H]; rewrite H; [|rewrite orb_true_r]; reflexivity.
Qed.

Lemma loadNextChapter_out_of_range (f : Fetcher) (props : ReaderProps) (dom : Dom)
      (s : State) :
  fetching s = false -> lastChapter s = false ->
  ~ (0 <= nextChapterIndex s < Z.of_nat (List.length (availableChapters props)))%Z ->
  Reader.loadNextChapter f props dom s = (Returned tt, withLastChapter true s, []).
Proof.
  intros Hf Hl Hr. rewrite <- range_guard in Hr. apply not_false_is_true in Hr.
  unfold Reader.loadNextChapter, bind, read. rewrite Hf, Hl. run_act.
  rewrite Hr. reflexivity.
Qed.

Section InRange.

Variable f : Fetcher.
Variable props : ReaderProps.
Variable dom : Dom.
Variable s : State.
Variable c : Chapter.
Variable effs : list Effect.

Hypothesis Hfetching : fetching s = false.
Hypothesis Hlast : lastChapter s = false.
Hypothesis Hcursor : index (availableChapters props) (nextChapterIndex s) = Some c.

Ltac enter_fetch Hf :=
  let Hr := fresh "Hr" in
  pose proof (index_Some_range _ _ _ Hcursor) as Hr; apply range_guard in Hr;
  unfold Reader.loadNextChapter, bind, read; rewrite Hfetching, Hlast; run_act;
  rewrite Hr; run_act;
  unfold tryCatchFinally, bind; run_act;
  rewrite Hcursor; run_act;
  unfold await; rewrite Hf; run_act.

Ltac finish_fetch :=
  run_act; rewrite ?Hlast, ?Hfetching; cbn [app]; rewrite ?app_nil_r; reflexivity.

Lemma loadNextChapter_append (ch : ChapterData) :
  f (value c) (text c) = (effs, Returned (Some ch)) ->
  (List.length (chapters s) < 3)%nat ->
  Reader.loadNextChapter f props dom s
  = (Returned tt,
     mkState (nextChapterIndex s + 1) (chapters s ++ [ch]) false false None,
     effs).
Proof.
  intros Hf Hlen. enter_fetch Hf.
  rewrite updateChapters_append by exact Hlen. finish_fetch.
Qed.

Lemma loadNextChapter_evict (ch : ChapterData) :
  f (value c) (text c) = (effs, Returned (Some ch)) ->
  (3 <= List.length (chapters s))%nat ->
  Reader.loadNextChapter f props dom s
  = (Returned tt,
     mkState (nextChapterIndex s + 1) (skipn 1 (chapters s) ++ [ch]) false false
             (anchorOf dom (chapters s)),
     effs ++ match anchorOf dom (chapters s) with
             | Some a => [QueueMicrotask a]
             | None => [anchorWarning]
             end).
Proof.
  intros Hf Hlen. enter_fetch Hf.
  rewrite updateChapters_evict by exact Hlen. finish_fetch.
Qed.

Lemma loadNextChapter_null :
  f (value c) (text c) = (effs, Returned None) ->
  Reader.loadNextChapter f props dom s
  = (Returned tt,
     mkState (nextChapterIndex s) (chapters s) true false None,
     effs).
Proof.
  intros Hf. enter_fetch Hf. finish_fetch.
Qed.

Lemma loadNextChapter_threw (e : JSError) :
  f (value c) (text c) = (effs, Threw e) ->
  Reader.loadNextChapter f props dom s
  = (Returned tt,
     mkState (nextChapterIndex s) (chapters s) false false (scrollAnchorInfo s),
     effs ++ [fetchError e]).
Proof.
  intros Hf. enter_fetch Hf. finish_fetch.
Qed.

End InRange.

(** *** The first version, case by case *)

Ltac run_legacy :=
  cbn -[Z.eqb Z.gtb Z.ltb Z.add index Z.of_nat Nat.leb List.length skipn app
        Qminus Qplus nth_error].

Lemma legacy_reentrant (f : Fetcher) (props : ReaderProps) (dom : Dom) (s : State) :
  fetching s = true \/ lastChapter s = true ->
  Legacy.loadNextChapter f props dom s = (Returned tt, s, []).
Proof.
  intros H. unfold Legacy.loadNextChapter, bind, read.
  destruct H as [H|H]; rewrite H; [|rewrite orb_true_r]; reflexivity.
Qed.

(** Without a range guard, a cursor outside the table of contents makes
    [chapterToFetch.value] throw after [setFetching(true)]. *)
Lemma legacy_out_of_range (f : Fetcher) (props : ReaderProps) (dom : Dom) (s : State) :
  fetching s = false -> lastChapter s = false ->
  index (availableChapters props) (nextChapterIndex s) = None ->
  Legacy.loadNextChapter f props dom s
  = (Threw (TypeError "value"), withFetching true s, []).
Proof.
  intros Hf Hl Hi. unfold Legacy.loadNextChapter, bind, read.
  rewrite Hf, Hl. run_legacy. rewrite Hi. run_legacy.
  unfold withFetching. rewrite Hl. reflexivity.
Qed.

Section LegacyInRange.

Variable f : Fetcher.
Variable props : ReaderProps.
Variable dom : Dom.
Variable s : State.
Variable c : Chapter.
Variable effs : list Effect.

Hypothesis Hfetching : fetching s = false.
Hypothesis Hlast : lastChapter s = false.
Hypothesis Hcursor : index (availableChapters props) (nextChapterIndex s) = Some c.

Ltac enter_legacy Hf :=
  unfold Legacy.loadNextChapter, bind, read; rewrite Hfetching, Hlast; run_legacy;
  rewrite Hcursor; run_legacy;
  unfold await; rewrite Hf; run_legacy.

Lemma legacy_append (ch : ChapterData) :
  f (value c) (text c) = (effs, Returned (Some ch)) ->
  (List.length (chapters s) < 3)%nat ->
  Legacy.loadNextChapter f props dom s
  = (Returned tt,
     mkState (nextChapterIndex s + 1) (chapters s ++ [ch]) false false None,
     effs).
Proof.
  intros Hf Hlen. enter_legacy Hf.
  apply Nat.leb_gt in Hlen. rewrite Hlen. run_legacy.
  rewrite Hlast. cbn [app]. rewrite ?app_nil_r. reflexivity.
Qed.

Lemma legacy_evict (ch : ChapterData) :
  f (value c) (text c) = (effs, Returned (Some ch)) ->
  (3 <= List.length (chapters s))%nat ->
  completionOf (Legacy.loadNextChapter f props dom s) = Returned tt /\
  stateOf (Legacy.loadNextChapter f props dom s)
  = mkState (nextChapterIndex s + 1) (skipn 1 (chapters s) ++ [ch]) false false
            (anchorOf dom (chapters s)) /\
  microtasksOf (effectsOf (Legacy.loadNextChapter f props dom s))
  = microtasksOf effs ++ match anchorOf dom (chapters s) with
                         | Some a => [a]
                         | None => []
                         end.
Proof.
  intros Hf Hlen. enter_legacy Hf.
  pose proof Hlen as Hleb. apply Nat.leb_le in Hleb. rewrite Hleb. run_legacy.
  change (index (chapters s) 1) with (nth_error (chapters s) 1).
  unfold anchorOf.
  destruct (nth_error (chapters s) 1) as [c1|] eqn:E1.
  - run_legacy.
    destruct (chapterOffsetTop dom (id c1)) as [t|] eqn:Et; run_legacy;
      unfold stateOf, completionOf, effectsOf; cbn [fst snd];
      rewrite Hlast; unfold microtasksOf; cbn [app]; rewrite ?app_nil_r;
      rewrite ?flat_map_app; cbn [app flat_map]; rewrite ?app_nil_r;
      repeat split; reflexivity.
  - apply nth_error_None in E1. lia.
Qed.

Lemma legacy_evict_scrolls (ch : ChapterData) :
  f (value c) (text c) = (effs, Returned (Some ch)) ->
  (3 <= List.length (chapters s))%nat ->
  filter isScrollTo (effectsOf (Legacy.loadNextChapter f props dom s))
  = filter isScrollTo effs.
Proof.
  intros Hf Hlen. enter_legacy Hf.
  pose proof Hlen as Hleb. apply Nat.leb_le in Hleb. rewrite Hleb. run_legacy.
  change (index (chapters s) 1) with (nth_error (chapters s) 1).
  destruct (nth_error (chapters s) 1) as [c1|] eqn:E1.
  - run_legacy.
    destruct (chapterOffsetTop dom (id c1)) as [t|] eqn:Et; run_legacy;
      unfold effectsOf; cbn [fst snd]; cbn [app]; rewrite ?app_nil_r;
      rewrite ?filter_app; cbn [filter isScrollTo app]; rewrite ?app_nil_r;
      reflexivity.
  - apply nth_error_None in E1. lia.
Qed.

Lemma legacy_null :
  f (value c) (text c) = (effs, Returned None) ->
  Legacy.loadNextChapter f props dom s
  = (Returned tt,
     mkState (nextChapterIndex s) (chapters s) true false None,
     effs).
Proof.
  intros Hf. enter_legacy Hf. cbn [app]. rewrite ?app_nil_r. reflexivity.
Qed.

(** Without [try]/[finally], a rejected fetch leaves [fetching] set. *)
Lemma legacy_threw (e : JSError) :
  f (value c) (text c) = (effs, Threw e) ->
  Legacy.loadNextChapter f props dom s
  = (Threw e, withFetching true s, effs).
Proof.
  intros Hf. enter_legacy Hf. unfold withFetching. rewrite Hlast.
  cbn [app]. rewrite ?app_nil_r. reflexivity.
Qed.

End LegacyInRange.

(** *** Sliding the window *)

Lemma slide_length (prev : list ChapterData) (r : ChapterData) :
  (1 <= List.length prev)%nat ->
  List.length (skipn 1 prev ++ [r]) = List.length prev.
Proof.
  destruct prev as [|x rest]; cbn [List.length skipn]; [lia|].
  intros _. rewrite length_app. cbn [List.length]. lia.
Qed.

Lemma slide_shift (prev : list ChapterData) (r : ChapterData) (k : nat) :
  (S k < List.length prev)%nat ->
  nth_error (skipn 1 prev ++ [r]) k = nth_error prev (S k).
Proof.
  destruct prev as [|x rest]; cbn [List.length skipn nth_error]; [lia|].
  intros H. apply nth_error_app1. lia.
Qed.

Lemma slide_last (prev : list ChapterData) (r : ChapterData) :
  (1 <= List.length prev)%nat ->
  nth_error (skipn 1 prev ++ [r]) (List.length prev - 1) = Some r.
Proof.
  destruct prev as [|x rest]; cbn [List.length skipn]; [lia|].
  intros _. rewrite nth_error_app2 by lia.
  replace (S (List.length rest) - 1 - List.length rest)%nat with 0%nat by lia.
  reflexivity.
Qed.

(** C1.  Eviction correctness: for every window of length at least 3 and
    every successfully fetched record [r], the advance operation (in both
    versions of the component) replaces the window by the previous window's
    elements at indices 1..end followed by [r], in that order. *)
Theorem eviction_correctness
        (f : Fetcher) (props : ReaderProps) (dom : Dom) (s : State)
        (c : Chapter) (effs : list Effect) (r : ChapterData) :
  fetching s = false ->
  lastChapter s = false ->
  index (availableChapters props) (nextChapterIndex s) = Some c ->
  f (value c) (text c) = (effs, Returned (Some r)) ->
  (3 <= List.length (chapters s))%nat ->
  let window' := chapters (Reader.advance f props dom s) in
  window' = skipn 1 (chapters s) ++ [r] /\
  chapters (Legacy.advance f props dom s) = skipn 1 (chapters s) ++ [r] /\
  List.length window' = List.length (chapters s) /\
  (forall k, (S k < List.length (chapters s))%nat ->
             nth_error window' k = nth_error (chapters s) (S k)) /\
  nth_error window' (List.length (chapters s) - 1) = Some r.
Proof.
  intros Hf Hl Hi Hfetch Hlen. cbv zeta. unfold Reader.advance, Legacy.advance.
  rewrite (@loadNextChapter_evict f props dom s c effs Hf Hl Hi r Hfetch Hlen).
  destruct (@legacy_evict f props dom s c effs Hf Hl Hi r Hfetch Hlen) as (_ & Hs & _).
  rewrite Hs. unfold stateOf. cbn [fst snd chapters].
  split; [reflexivity|]. split; [reflexivity|].
  split; [apply slide_length; lia|].
  split; [intros k Hk; apply slide_shift; exact Hk | apply slide_last; lia].
Qed.

Lemma eviction_correctness_witness :
  let s := mkState 3 [record 0; record 1; record 2] false false None in
  chapters (Reader.advance (serve (record 3)) fiveChapters page s)
  = [record 1; record 2; record 3]
  /\ chapters (Legacy.advance (serve (record 3)) fiveChapters page s)
     = [record 1; record 2; record 3].
Proof.
  cbv zeta.
  destruct (@eviction_correctness (serve (record 3)) fiveChapters page
              (mkState 3 [record 0; record 1; record 2] false false None)
              (tocEntry 3) [HttpGet (chapterUrl 3)] (record 3)
              eq_refl eq_refl eq_refl eq_refl (le_n 3)) as (H1 & H2 & _).
  split; [exact H1 | exact H2].
Defined.

(** *** The window length *)

Lemma restoreMicrotask_state (dom : Dom) (a : Anchor) (s : State) :
  stateOf (Reader.restoreMicrotask dom a s) = withAnchor None s.
Proof.
  unfold Reader.restoreMicrotask, bind.
  destruct (chapterOffsetTop dom (anchor_id a)); reflexivity.
Qed.

Lemma runMicrotasks_chapters (dom : Dom) (queue : list Anchor) (s : State) :
  let s' := stateOf (runMicrotasks Reader.restoreMicrotask dom queue s) in
  chapters s' = chapters s /\ lastChapter s' = lastChapter s /\
  nextChapterIndex s' = nextChapterIndex s /\ fetching s' = fetching s.
Proof.
  cbv zeta. revert s. induction queue as [|a rest IH]; intros s.
  - repeat split.
  - cbn [runMicrotasks]. unfold bind.
    pose proof (restoreMicrotask_state dom a s) as Hm.
    destruct (Reader.restoreMicrotask dom a s) as [[r s1] e1].
    unfold stateOf in Hm. cbn [fst snd] in Hm. subst s1.
    destruct r as [u|e].
    + specialize (IH (withAnchor None s)).
      destruct (runMicrotasks Reader.restoreMicrotask dom rest (withAnchor None s))
        as [[r2 s2] e2].
      unfold stateOf in *. cbn [fst snd] in *. exact IH.
    + repeat split.
Qed.

Lemma runTask_signals (task : Act unit) (domAfter : Dom) (s : State) :
  let s' := fst (Reader.runTask task domAfter s) in
  chapters s' = chapters (stateOf (task s)) /\
  lastChapter s' = lastChapter (stateOf (task s)) /\
  nextChapterIndex s' = nextChapterIndex (stateOf (task s)) /\
  fetching s' = fetching (stateOf (task s)).
Proof.
  cbv zeta. unfold Reader.runTask, runTaskWith.
  destruct (task s) as [[r s1] e1].
  pose proof (runMicrotasks_chapters domAfter (microtasksOf e1) s1) as H.
  cbv zeta in H.
  destruct (runMicrotasks Reader.restoreMicrotask domAfter (microtasksOf e1) s1)
    as [[r2 s2] e2].
  unfold stateOf in *. cbn [fst snd] in *. exact H.
Qed.

(** What one call of the advance operation does to the window. *)
Lemma loadNextChapter_window (f : Fetcher) (props : ReaderProps) (dom : Dom)
      (s : State) :
  let window' := chapters (stateOf (Reader.loadNextChapter f props dom s)) in
  window' = chapters s
  \/ (exists r, (List.length (chapters s) < 3)%nat /\ window' = chapters s ++ [r])
  \/ (exists r, (3 <= List.length (chapters s))%nat
                /\ window' = skipn 1 (chapters s) ++ [r]).
Proof.
  cbv zeta.
  destruct (fetching s) eqn:Hf.
  { rewrite loadNextChapter_reentrant by (left; exact Hf). left; reflexivity. }
  destruct (lastChapter s) eqn:Hl.
  { rewrite loadNextChapter_reentrant by (right; exact Hl). left; reflexivity. }
  destruct (index (availableChapters props) (nextChapterIndex s)) as [c|] eqn:Hi.
  - destruct (f (value c) (text c)) as [effs [[r|]|e]] eqn:Hfetch.
    + destruct (le_lt_dec 3 (List.length (chapters s))) as [Hlen|Hlen].
      * rewrite (@loadNextChapter_evict f props dom s c effs Hf Hl Hi r Hfetch Hlen).
        right; right. exists r. split; [exact Hlen | reflexivity].
      * rewrite (@loadNextChapter_append f props dom s c effs Hf Hl Hi r Hfetch Hlen).
        right; left. exists r. split; [exact Hlen | reflexivity].
    + rewrite (@loadNextChapter_null f props dom s c effs Hf Hl Hi Hfetch). left; reflexivity.
    + rewrite (@loadNextChapter_threw f props dom s c effs Hf Hl Hi e Hfetch). left; reflexivity.
  - rewrite loadNextChapter_out_of_range; [left; reflexivity | exact Hf | exact Hl |].
    intros Hr. apply index_range_Some in Hr. destruct Hr as [x Hx].
    rewrite Hx in Hi. discriminate Hi.
Qed.

Lemma handleScroll_state (A : Arith) (el : option (DOMRect A)) (vp : Viewport A) (f : Fetcher)
      (props : ReaderProps) (dom : Dom) (s : State) :
  stateOf (Reader.handleScroll el vp f props dom s) = s
  \/ stateOf (Reader.handleScroll el vp f props dom s)
     = stateOf (Reader.loadNextChapter f props dom s).
Proof.
  unfold Reader.handleScroll, bind, read.
  destruct (lastChapter s || fetching s); [left; reflexivity|].
  destruct (ltb A _ _); [right | left; reflexivity].
  unfold detached.
  destruct (Reader.loadNextChapter f props dom s) as [[r s1] e1]. reflexivity.
Qed.

Lemma loadNextChapter_bounded (f : Fetcher) (props : ReaderProps) (dom : Dom)
      (s : State) :
  windowBounded s -> windowBounded (stateOf (Reader.loadNextChapter f props dom s)).
Proof.
  unfold windowBounded. intros H.
  destruct (loadNextChapter_window f props dom s) as [E|[[r [Hlen E]]|[r [Hlen E]]]];
    rewrite E.
  - exact H.
  - rewrite length_app. cbn [List.length]. lia.
  - rewrite slide_length by lia. lia.
Qed.

Lemma step_bounded (props : ReaderProps) (ev : Reader.Event) (s : State) :
  windowBounded s -> windowBounded (fst (Reader.step props ev s)).
Proof.
  intros H. unfold windowBounded.
  destruct ev as [A el vp f dom domAfter|f dom domAfter]; cbn [Reader.step].
  - destruct (runTask_signals (Reader.handleScroll el vp f props dom) domAfter s)
      as (E & _). rewrite E.
    destruct (handleScroll_state A el vp f props dom s) as [E'|E']; rewrite E'.
    + exact H.
    + apply loadNextChapter_bounded. exact H.
  - destruct (runTask_signals (Reader.loadNextChapter f props dom) domAfter s)
      as (E & _). rewrite E.
    apply loadNextChapter_bounded. exact H.
Qed.

Lemma run_bounded (props : ReaderProps) (evs : list Reader.Event) (s : State) :
  windowBounded s -> windowBounded (Reader.run props evs s).
Proof.
  revert s. induction evs as [|ev rest IH]; intros s H; cbn [Reader.run].
  - exact H.
  - apply IH. apply step_bounded. exact H.
Qed.

(** C2.  Window length invariant: starting from the seeded one-element
    window, after any sequence of settled scroll events and advance calls,
    whatever each fetch does, the window length is between 1 and 3. *)
Theorem window_length_invariant (props : ReaderProps) (evs : list Reader.Event) :
  List.length (chapters (init props)) = 1%nat /\
  (1 <= List.length (chapters (Reader.run props evs (init props))) <= 3)%nat.
Proof.
  split; [reflexivity|].
  apply (run_bounded props evs). unfold windowBounded. cbn. lia.
Qed.

(** *** Exhaustion *)

Lemma handleScroll_exhausted (A : Arith) (el : option (DOMRect A)) (vp : Viewport A) (f : Fetcher)
      (props : ReaderProps) (dom : Dom) (s : State) :
  lastChapter s = true ->
  Reader.handleScroll el vp f props dom s = (Returned tt, s, []).
Proof.
  intros H. unfold Reader.handleScroll, bind, read. rewrite H. reflexivity.
Qed.

Lemma step_exhausted (props : ReaderProps) (ev : Reader.Event) (s : State) :
  lastChapter s = true -> Reader.step props ev s = (s, []).
Proof.
  intros H. destruct ev as [A el vp f dom domAfter|f dom domAfter];
    cbn [Reader.step]; unfold Reader.runTask, runTaskWith.
  - rewrite handleScroll_exhausted by exact H. reflexivity.
  - rewrite loadNextChapter_reentrant by (right; exact H). reflexivity.
Qed.

(** C7.  Exhaustion is sticky: once [lastChapter] is set, every later call
    of the advance operation returns at its guard, leaving all the signals
    (window, cursor, in-flight flag, scroll anchor) as they are and
    performing no effect, hence no fetch; the same holds for every scroll
    event, so that no sequence of events ever clears the flag. *)
Theorem exhaustion_is_sticky (props : ReaderProps) (s : State) :
  lastChapter s = true ->
  (forall f dom, Reader.loadNextChapter f props dom s = (Returned tt, s, [])) /\
  (forall ev, Reader.step props ev s = (s, [])) /\
  (forall evs, Reader.run props evs s = s
               /\ lastChapter (Reader.run props evs s) = true).
Proof.
  intros H. split; [|split].
  - intros f dom. apply loadNextChapter_reentrant. right. exact H.
  - intros ev. apply step_exhausted. exact H.
  - intros evs.
    assert (E : Reader.run props evs s = s).
    { induction evs as [|ev rest IH]; cbn [Reader.run]; [reflexivity|].
      rewrite (@step_exhausted props ev s H). exact IH. }
    rewrite E. split; [reflexivity | exact H].
Qed.

Lemma exhaustion_is_sticky_witness :
  let s := mkState 5 [record 2; record 3; record 4] true false None in
  Reader.loadNextChapter (serve (record 4)) fiveChapters page s = (Returned tt, s, [])
  /\ Reader.run fiveChapters
                [Reader.AdvanceCall (serve (record 4)) page page;
                 Reader.ScrollEvent (Some (mkRect ieee (-900)%float 1000%float))
                                    (mkViewport ieee 800%float 800%float)
                                    (serve (record 4)) page page] s = s.
Proof.
  cbv zeta.
  destruct (@exhaustion_is_sticky fiveChapters
              (mkState 5 [record 2; record 3; record 4] true false None) eq_refl)
    as (H1 & _ & H3).
  split; [apply H1 | apply H3].
Defined.

(** *** Scroll anchor restoration *)

Section WindowMutation.

Variable s : State.
Variable a : Anchor.
Hypothesis Hanchor : scrollAnchorInfo s = Some a.
Variable cs : list ChapterData.
Variable domAfter : Dom.

Lemma setChapters_queues :
  Reader.setChapters cs s
  = (Returned tt,
     mkState (nextChapterIndex s) cs (lastChapter s) (fetching s) (Some a),
     [QueueMicrotask a])
  /\ Legacy.setChapters cs s = Reader.setChapters cs s.
Proof.
  unfold Reader.setChapters, Legacy.setChapters, writeChapters, modify, bind,
    Reader.restoreScrollPosition, Legacy.restoreEffect, read, emit.
  signals. rewrite Hanchor. split; reflexivity.
Qed.

Lemma setChapters_found (T : Q) :
  chapterOffsetTop domAfter (anchor_id a) = Some T ->
  Reader.runTask (Reader.setChapters cs) domAfter s
  = (mutated cs s, [QueueMicrotask a; ScrollTo (T + offset a) Instant])
  /\ fst (Legacy.runTask (Legacy.setChapters cs) domAfter s) = mutated cs s
  /\ filter isScrollTo (snd (Legacy.runTask (Legacy.setChapters cs) domAfter s))
     = [ScrollTo (T + offset a) Instant].
Proof.
  intros HT. destruct setChapters_queues as [E1 E2].
  unfold Reader.runTask, Legacy.runTask, runTaskWith. rewrite E2, E1.
  cbn [microtasksOf flat_map app runMicrotasks].
  unfold Reader.restoreMicrotask, Legacy.restoreMicrotask, bind. rewrite HT.
  split; [|split]; reflexivity.
Qed.

Lemma setChapters_not_found :
  chapterOffsetTop domAfter (anchor_id a) = None ->
  fst (Reader.runTask (Reader.setChapters cs) domAfter s) = mutated cs s
  /\ filter isScrollTo (snd (Reader.runTask (Reader.setChapters cs) domAfter s)) = []
  /\ fst (Legacy.runTask (Legacy.setChapters cs) domAfter s) = mutated cs s
  /\ filter isScrollTo (snd (Legacy.runTask (Legacy.setChapters cs) domAfter s)) = [].
Proof.
  intros HT. destruct setChapters_queues as [E1 E2].
  unfold Reader.runTask, Legacy.runTask, runTaskWith. rewrite E2, E1.
  cbn [microtasksOf flat_map app runMicrotasks].
  unfold Reader.restoreMicrotask, Legacy.restoreMicrotask, bind. rewrite HT.
  split; [|split; [|split]]; reflexivity.
Qed.

Lemma setChapters_clears :
  scrollAnchorInfo (fst (Reader.runTask (Reader.setChapters cs) domAfter s)) = None
  /\ scrollAnchorInfo (fst (Legacy.runTask (Legacy.setChapters cs) domAfter s)) = None.
Proof.
  destruct (chapterOffsetTop domAfter (anchor_id a)) as [T|] eqn:HT.
  - destruct (setChapters_found T HT) as (E1 & E2 & _). rewrite E1, E2.
    split; reflexivity.
  - destruct (setChapters_not_found HT) as (E1 & _ & E2 & _). rewrite E1, E2.
    split; reflexivity.
Qed.

End WindowMutation.

(** A window mutation with no anchor present restores nothing. *)
Lemma setChapters_no_anchor (s : State) (cs : list ChapterData) (domAfter : Dom) :
  scrollAnchorInfo s = None ->
  Reader.runTask (Reader.setChapters cs) domAfter s = (mutated cs s, [])
  /\ Legacy.runTask (Legacy.setChapters cs) domAfter s = (mutated cs s, []).
Proof.
  intros H.
  unfold Reader.runTask, Legacy.runTask, runTaskWith,
    Reader.setChapters, Legacy.setChapters, writeChapters, modify, bind,
    Reader.restoreScrollPosition, Legacy.restoreEffect, read, mutated.
  signals. rewrite H. split; reflexivity.
Qed.

Lemma legacy_eviction_then_restore
      (props : ReaderProps) (dom domAfter : Dom) (s : State) (l : Chapter)
      (r anchorChapter : ChapterData) (T T' : Q) :
  fetching s = false ->
  lastChapter s = false ->
  index (availableChapters props) (nextChapterIndex s) = Some l ->
  (3 <= List.length (chapters s))%nat ->
  nth_error (chapters s) 1 = Some anchorChapter ->
  chapterOffsetTop dom (id anchorChapter) = Some T ->
  chapterOffsetTop domAfter (id anchorChapter) = Some T' ->
  fst (legacyStep props (Reader.AdvanceCall (serve r) dom domAfter) s)
  = mkState (nextChapterIndex s + 1) (skipn 1 (chapters s) ++ [r]) false false None
  /\ filter isScrollTo
            (snd (legacyStep props (Reader.AdvanceCall (serve r) dom domAfter) s))
     = [ScrollTo (T' + (scrollY dom - T)) Instant].
Proof.
  intros Hf Hl Hi Hlen Hnth HT HT'.
  destruct (legacy_evict (serve r) props dom s l [HttpGet (value l)] Hf Hl Hi
                         r eq_refl Hlen) as (_ & Hs & Hm).
  pose proof (legacy_evict_scrolls (serve r) props dom s l [HttpGet (value l)]
                                   Hf Hl Hi r eq_refl Hlen) as Hsc.
  cbn [legacyStep]. unfold Legacy.runTask, runTaskWith, detached.
  destruct (Legacy.loadNextChapter (serve r) props dom s) as [[r0 s1] e1].
  unfold stateOf, effectsOf in Hs, Hm, Hsc. cbn [fst snd] in Hs, Hm, Hsc.
  rewrite Hm. unfold anchorOf in Hm, Hs |- *. rewrite Hnth, HT in Hs |- *.
  cbn [microtasksOf flat_map app runMicrotasks].
  unfold Legacy.restoreMicrotask, bind. cbn [anchor_id offset]. rewrite HT'.
  cbn [fst snd emit]. subst s1. split; [reflexivity|].
  cbn -[filter Qplus Qminus]. rewrite filter_app, Hsc. reflexivity.
Qed.

(** *** The five-chapter scenario *)

Lemma advance_serve (props : ReaderProps) (dom : Dom) (s : State) (l : Chapter)
      (c : ChapterData) :
  fetching s = false ->
  lastChapter s = false ->
  index (availableChapters props) (nextChapterIndex s) = Some l ->
  Reader.loadNextChapter (serve c) props dom s
  = if (3 <=? List.length (chapters s))%nat
    then (Returned tt,
          mkState (nextChapterIndex s + 1) (skipn 1 (chapters s) ++ [c]) false false
                  (anchorOf dom (chapters s)),
          [HttpGet (value l)] ++ match anchorOf dom (chapters s) with
                                 | Some a => [QueueMicrotask a]
                                 | None => [anchorWarning]
                                 end)
    else (Returned tt,
          mkState (nextChapterIndex s + 1) (chapters s ++ [c]) false false None,
          [HttpGet (value l)]).
Proof.
  intros Hf Hl Hi.
  destruct (Nat.leb_spec 3 (List.length (chapters s))) as [Hlen|Hlen].
  - apply (@loadNextChapter_evict (serve c) props dom s l [HttpGet (value l)]
             Hf Hl Hi c eq_refl Hlen).
  - apply (@loadNextChapter_append (serve c) props dom s l [HttpGet (value l)]
             Hf Hl Hi c eq_refl Hlen).
Qed.

Lemma legacy_serve (props : ReaderProps) (dom : Dom) (s : State) (l : Chapter)
      (c : ChapterData) :
  fetching s = false ->
  lastChapter s = false ->
  index (availableChapters props) (nextChapterIndex s) = Some l ->
  Legacy.advance (serve c) props dom s
  = if (3 <=? List.length (chapters s))%nat
    then mkState (nextChapterIndex s + 1) (skipn 1 (chapters s) ++ [c]) false false
                 (anchorOf dom (chapters s))
    else mkState (nextChapterIndex s + 1) (chapters s ++ [c]) false false None.
Proof.
  intros Hf Hl Hi. unfold Legacy.advance.
  destruct (Nat.leb_spec 3 (List.length (chapters s))) as [Hlen|Hlen].
  - apply (@legacy_evict (serve c) props dom s l [HttpGet (value l)]
             Hf Hl Hi c eq_refl Hlen).
  - rewrite (@legacy_append (serve c) props dom s l [HttpGet (value l)]
               Hf Hl Hi c eq_refl Hlen). reflexivity.
Qed.

Lemma step_serve (props : ReaderProps) (dom domAfter : Dom) (s : State) (l : Chapter)
      (c : ChapterData) :
  fetching s = false ->
  lastChapter s = false ->
  index (availableChapters props) (nextChapterIndex s) = Some l ->
  fst (Reader.step props (Reader.AdvanceCall (serve c) dom domAfter) s)
  = mkState (nextChapterIndex s + 1)
            (if (3 <=? List.length (chapters s))%nat
             then skipn 1 (chapters s) ++ [c] else chapters s ++ [c])
            false false None
  /\ hd_error (snd (Reader.step props (Reader.AdvanceCall (serve c) dom domAfter) s))
     = Some (HttpGet (value l)).
Proof.
  intros Hf Hl Hi. cbn [Reader.step]. unfold Reader.runTask, runTaskWith.
  rewrite (advance_serve props dom s l c Hf Hl Hi).
  destruct (3 <=? List.length (chapters s))%nat.
  - destruct (anchorOf dom (chapters s)) as [a|]; cbn [app microtasksOf flat_map].
    + cbn [runMicrotasks]. unfold bind.
      pose proof (restoreMicrotask_state domAfter a
                    (mkState (nextChapterIndex s + 1) (skipn 1 (chapters s) ++ [c])
                             false false (Some a))) as Hm.
      destruct (Reader.restoreMicrotask domAfter a _) as [[r s1] e1].
      unfold stateOf in Hm. cbn [fst snd] in Hm. subst s1.
      destruct r; split; reflexivity.
    + split; reflexivity.
  - split; reflexivity.
Qed.

(** C3 (as amended).  With five chapters in the table of contents and the
    window seeded as [c0], successive successful advance calls give the
    windows [c0,c1], [c0,c1,c2], [c1,c2,c3], [c2,c3,c4]: the first eviction
    happens on the third call, which anchors to c1; the fourth call anchors
    to c2.  The k-th call requests the k-th entry of the table of contents.
    Both versions of the component behave so. *)
Theorem eviction_timing
        (c0 c1 c2 c3 c4 : ChapterData) (l0 l1 l2 l3 l4 : Chapter) (novel : string)
        (dom domAfter : nat -> Dom) :
  let props := mkReaderProps [l0; l1; l2; l3; l4] novel 0 c0 in
  let call (k : nat) (c : ChapterData) :=
    Reader.AdvanceCall (serve c) (dom k) (domAfter k) in
  let s0 := init props in
  let s1 := fst (Reader.step props (call 1%nat c1) s0) in
  let s2 := fst (Reader.step props (call 2%nat c2) s1) in
  let s3 := fst (Reader.step props (call 3%nat c3) s2) in
  let s4 := fst (Reader.step props (call 4%nat c4) s3) in
  let anchorAt (k : nat) (c : ChapterData) :=
    match chapterOffsetTop (dom k) (id c) with
    | Some offsetTop => Some (mkAnchor (id c) (scrollY (dom k) - offsetTop))
    | None => None
    end in
  (chapters s0 = [c0] /\ chapters s1 = [c0; c1] /\ chapters s2 = [c0; c1; c2] /\
   chapters s3 = [c1; c2; c3] /\ chapters s4 = [c2; c3; c4]) /\
  (scrollAnchorInfo (Reader.advance (serve c1) props (dom 1%nat) s0) = None /\
   scrollAnchorInfo (Reader.advance (serve c2) props (dom 2%nat) s1) = None /\
   scrollAnchorInfo (Reader.advance (serve c3) props (dom 3%nat) s2) = anchorAt 3%nat c1 /\
   scrollAnchorInfo (Reader.advance (serve c4) props (dom 4%nat) s3) = anchorAt 4%nat c2) /\
  (hd_error (snd (Reader.step props (call 1%nat c1) s0)) = Some (HttpGet (value l1)) /\
   hd_error (snd (Reader.step props (call 2%nat c2) s1)) = Some (HttpGet (value l2)) /\
   hd_error (snd (Reader.step props (call 3%nat c3) s2)) = Some (HttpGet (value l3)) /\
   hd_error (snd (Reader.step props (call 4%nat c4) s3)) = Some (HttpGet (value l4))) /\
  (let t1 := Legacy.advance (serve c1) props (dom 1%nat) s0 in
   let t2 := Legacy.advance (serve c2) props (dom 2%nat) t1 in
   let t3 := Legacy.advance (serve c3) props (dom 3%nat) t2 in
   let t4 := Legacy.advance (serve c4) props (dom 4%nat) t3 in
   chapters t1 = [c0; c1] /\ chapters t2 = [c0; c1; c2] /\
   chapters t3 = [c1; c2; c3] /\ chapters t4 = [c2; c3; c4] /\
   scrollAnchorInfo t3 = anchorAt 3%nat c1 /\ scrollAnchorInfo t4 = anchorAt 4%nat c2).
Proof.
  cbv beta zeta.
  set (props := mkReaderProps [l0; l1; l2; l3; l4] novel 0 c0).
  set (s0 := init props).
  destruct (step_serve props (dom 1%nat) (domAfter 1%nat) s0 l1 c1
              eq_refl eq_refl eq_refl) as [E1 R1].
  change (fst (Reader.step props
                 (Reader.AdvanceCall (serve c1) (dom 1%nat) (domAfter 1%nat)) s0)
          = mkState 2 [c0; c1] false false None) in E1.
  rewrite !E1.
  destruct (step_serve props (dom 2%nat) (domAfter 2%nat)
              (mkState 2 [c0; c1] false false None) l2 c2
              eq_refl eq_refl eq_refl) as [E2 R2].
  change (fst (Reader.step props
                 (Reader.AdvanceCall (serve c2) (dom 2%nat) (domAfter 2%nat))
                 (mkState 2 [c0; c1] false false None))
          = mkState 3 [c0; c1; c2] false false None) in E2.
  rewrite !E2.
  destruct (step_serve props (dom 3%nat) (domAfter 3%nat)
              (mkState 3 [c0; c1; c2] false false None) l3 c3
              eq_refl eq_refl eq_refl) as [E3 R3].
  change (fst (Reader.step props
                 (Reader.AdvanceCall (serve c3) (dom 3%nat) (domAfter 3%nat))
                 (mkState 3 [c0; c1; c2] false false None))
          = mkState 4 [c1; c2; c3] false false None) in E3.
  rewrite !E3.
  destruct (step_serve props (dom 4%nat) (domAfter 4%nat)
              (mkState 4 [c1; c2; c3] false false None) l4 c4
              eq_refl eq_refl eq_refl) as [E4 R4].
  change (fst (Reader.step props
                 (Reader.AdvanceCall (serve c4) (dom 4%nat) (domAfter 4%nat))
                 (mkState 4 [c1; c2; c3] false false None))
          = mkState 5 [c2; c3; c4] false false None) in E4.
  rewrite !E4.
  unfold Reader.advance.
  assert (A1 : stateOf (Reader.loadNextChapter (serve c1) props (dom 1%nat) s0)
               = mkState 2 [c0; c1] false false None)
    by (rewrite (advance_serve props (dom 1%nat) s0 l1 c1 eq_refl eq_refl eq_refl);
        reflexivity).
  assert (A2 : stateOf (Reader.loadNextChapter (serve c2) props (dom 2%nat)
                          (mkState 2 [c0; c1] false false None))
               = mkState 3 [c0; c1; c2] false false None)
    by (rewrite (advance_serve props (dom 2%nat)
                 (mkState 2 [c0; c1] false false None) l2 c2 eq_refl eq_refl eq_refl);
        reflexivity).
  assert (A3 : stateOf (Reader.loadNextChapter (serve c3) props (dom 3%nat)
                          (mkState 3 [c0; c1; c2] false false None))
               = mkState 4 [c1; c2; c3] false false (anchorOf (dom 3%nat) [c0; c1; c2]))
    by (rewrite (advance_serve props (dom 3%nat)
                 (mkState 3 [c0; c1; c2] false false None) l3 c3 eq_refl eq_refl eq_refl);
        reflexivity).
  assert (A4 : stateOf (Reader.loadNextChapter (serve c4) props (dom 4%nat)
                          (mkState 4 [c1; c2; c3] false false None))
               = mkState 5 [c2; c3; c4] false false (anchorOf (dom 4%nat) [c1; c2; c3]))
    by (rewrite (advance_serve props (dom 4%nat)
                 (mkState 4 [c1; c2; c3] false false None) l4 c4
                 eq_refl eq_refl eq_refl);
        reflexivity).
  rewrite A1, A2, A3, A4.
  assert (L1 : Legacy.advance (serve c1) props (dom 1%nat) s0
               = mkState 2 [c0; c1] false false None)
    by (rewrite (legacy_serve props (dom 1%nat) s0 l1 c1 eq_refl eq_refl eq_refl);
        reflexivity).
  rewrite !L1.
  assert (L2 : Legacy.advance (serve c2) props (dom 2%nat)
                              (mkState 2 [c0; c1] false false None)
               = mkState 3 [c0; c1; c2] false false None)
    by (rewrite (legacy_serve props (dom 2%nat)
                 (mkState 2 [c0; c1] false false None) l2 c2 eq_refl eq_refl eq_refl);
        reflexivity).
  rewrite !L2.
  assert (L3 : Legacy.advance (serve c3) props (dom 3%nat)
                              (mkState 3 [c0; c1; c2] false false None)
               = mkState 4 [c1; c2; c3] false false (anchorOf (dom 3%nat) [c0; c1; c2]))
    by (rewrite (legacy_serve props (dom 3%nat)
                 (mkState 3 [c0; c1; c2] false false None) l3 c3 eq_refl eq_refl eq_refl);
        reflexivity).
  rewrite !L3.
  assert (L4 : Legacy.advance (serve c4) props (dom 4%nat)
                              (mkState 4 [c1; c2; c3] false false
                                       (anchorOf (dom 3%nat) [c0; c1; c2]))
               = mkState 5 [c2; c3; c4] false false (anchorOf (dom 4%nat) [c1; c2; c3]))
    by (rewrite (legacy_serve props (dom 4%nat)
                 (mkState 4 [c1; c2; c3] false false
                          (anchorOf (dom 3%nat) [c0; c1; c2])) l4 c4
                 eq_refl eq_refl eq_refl);
        reflexivity).
  rewrite !L4.
  repeat split; assumption.
Qed.

(** C3 as stated fails: in the five-chapter session the third advance
    call, not the fourth, evicts c0 and leaves [c1,c2,c3]; the fourth call
    leaves [c2,c3,c4]. *)
Lemma eviction_timing_counterexample :
  let call (n : Z) := Reader.AdvanceCall (serve (record n)) page page in
  let s2 := Reader.run fiveChapters [call 1%Z; call 2%Z] (init fiveChapters) in
  let s3 := Reader.run fiveChapters [call 1%Z; call 2%Z; call 3%Z] (init fiveChapters) in
  let s4 := Reader.run fiveChapters [call 1%Z; call 2%Z; call 3%Z; call 4%Z]
                       (init fiveChapters) in
  chapters s2 = [record 0; record 1; record 2] /\
  chapters s3 = [record 1; record 2; record 3] /\
  chapters s3 <> [record 0; record 1; record 2; record 3] /\
  chapters s4 = [record 2; record 3; record 4] /\
  chapters s4 <> [record 1; record 2; record 3].
Proof.
  cbv zeta. repeat split; try (vm_compute; reflexivity);
    intros H; vm_compute in H; discriminate H.
Qed.

(** *** Failed fetches *)

(** C4 (as amended).  When the fetch of an advance call fails by throwing
    (a network error, an unreadable body, any exception), the cursor, the
    window and the exhaustion flag are left as they were and the in-flight
    flag is cleared, so a later call fetches the same locator again and, if
    that fetch succeeds, advances.  When the fetch fails with an HTTP status
    outside 2xx (404, 403 or any other), the cursor is unchanged and the
    in-flight flag is cleared, but the exhaustion flag is set: every later
    advance call is a no-op. *)
Theorem failed_fetch_recovery
        (f : Fetcher) (props : ReaderProps) (dom : Dom) (s : State) (c : Chapter) :
  fetching s = false ->
  lastChapter s = false ->
  index (availableChapters props) (nextChapterIndex s) = Some c ->
  let s' := Reader.advance f props dom s in
  (forall effs e,
     f (value c) (text c) = (effs, Threw e) ->
     nextChapterIndex s' = nextChapterIndex s /\ chapters s' = chapters s /\
     fetching s' = false /\ lastChapter s' = false /\
     In (fetchError e) (effectsOf (Reader.loadNextChapter f props dom s)) /\
     (forall f' dom' effs' r,
        f' (value c) (text c) = (effs', Returned (Some r)) ->
        (exists rest, effectsOf (Reader.loadNextChapter f' props dom' s') = effs' ++ rest)
        /\ nextChapterIndex (Reader.advance f' props dom' s') = (nextChapterIndex s + 1)%Z
        /\ In r (chapters (Reader.advance f' props dom' s')))) /\
  (forall StringToNumber trim net,
     f = fetcherOf StringToNumber trim net ->
     (net (value c) = Fetch.NetworkFailure
      \/ exists status, (200 <= status <= 299)%Z
                        /\ net (value c) = Fetch.Response status None) ->
     exists effs e, f (value c) (text c) = (effs, Threw e)) /\
  (forall StringToNumber trim net status body,
     f = fetcherOf StringToNumber trim net ->
     net (value c) = Fetch.Response status body ->
     ~ (200 <= status <= 299)%Z ->
     nextChapterIndex s' = nextChapterIndex s /\ chapters s' = chapters s /\
     fetching s' = false /\ lastChapter s' = true /\
     (forall f' dom', Reader.loadNextChapter f' props dom' s' = (Returned tt, s', []))).
Proof.
  intros Hf Hl Hi. cbv zeta. unfold Reader.advance. split; [|split].
  - intros effs e Hfetch.
    rewrite (loadNextChapter_threw f props dom s c effs Hf Hl Hi e Hfetch).
    unfold stateOf, effectsOf. cbn [fst snd]. signals.
    split; [reflexivity|]. split; [reflexivity|]. split; [reflexivity|].
    split; [reflexivity|].
    split; [apply in_or_app; right; left; reflexivity|].
    intros f' dom' effs' r Hf'.
    destruct (Nat.leb_spec 3 (List.length (chapters s))) as [Hlen|Hlen].
    + rewrite (loadNextChapter_evict f' props dom'
                 (mkState (nextChapterIndex s) (chapters s) false false
                          (scrollAnchorInfo s))
                 c effs' eq_refl eq_refl Hi r Hf' Hlen).
      cbn [fst snd chapters nextChapterIndex].
      split; [eexists; reflexivity|]. split; [reflexivity|].
      apply in_or_app. right. left. reflexivity.
    + rewrite (loadNextChapter_append f' props dom'
                 (mkState (nextChapterIndex s) (chapters s) false false
                          (scrollAnchorInfo s))
                 c effs' eq_refl eq_refl Hi r Hf' Hlen).
      cbn [fst snd chapters nextChapterIndex].
      split; [exists []; rewrite app_nil_r; reflexivity|]. split; [reflexivity|].
      apply in_or_app. right. left. reflexivity.
  - intros stn trim net Ef Hnet. subst f. unfold fetcherOf.
    destruct Hnet as [Hnet|[status [Hok Hnet]]]; rewrite Hnet.
    + eexists. eexists. reflexivity.
    + apply ok_range in Hok. unfold Fetch.fetchChapter. rewrite Hok.
      eexists. eexists. reflexivity.
  - intros stn trim net status body Ef Hnet Hok. subst f.
    rewrite <- ok_range in Hok. apply not_true_is_false in Hok.
    assert (Hfetch : fetcherOf stn trim net (value c) (text c)
                     = (HttpGet (value c)
                          :: (if (status =? 404)%Z then [] else
                                if (status =? 403)%Z then [Navigate (value c)] else [])
                          ++ [Fetch.fetchFailed (text c)],
                        Returned None)).
    { unfold fetcherOf. rewrite Hnet. apply fetch_non_ok. exact Hok. }
    rewrite (loadNextChapter_null _ props dom s c _ Hf Hl Hi Hfetch).
    unfold stateOf. cbn [fst snd]. signals.
    split; [reflexivity|]. split; [reflexivity|]. split; [reflexivity|].
    split; [reflexivity|].
    intros f' dom'. apply loadNextChapter_reentrant. right. reflexivity.
Qed.

Lemma failed_fetch_recovery_witness :
  let props := fiveChapters in
  let down := fetcherOf decimalToNumber asciiTrim offline in
  let s' := Reader.advance down props page (init props) in
  nextChapterIndex s' = 1%Z /\ chapters s' = [record 0] /\
  fetching s' = false /\ lastChapter s' = false /\
  nextChapterIndex (Reader.advance (serve (record 1)) props page s') = 2%Z /\
  In (record 1) (chapters (Reader.advance (serve (record 1)) props page s')).
Proof.
  cbv zeta.
  destruct (failed_fetch_recovery
              (fetcherOf decimalToNumber asciiTrim offline) fiveChapters page
              (init fiveChapters) (tocEntry 1) eq_refl eq_refl eq_refl)
    as (Hthrown & _ & _).
  destruct (Hthrown [HttpGet (chapterUrl 1)] NetworkError eq_refl)
    as (H1 & H2 & H3 & H4 & _ & Hretry).
  destruct (Hretry (serve (record 1)) page [HttpGet (chapterUrl 1)] (record 1) eq_refl)
    as (_ & H5 & H6).
  repeat split; assumption.
Defined.

(** C4 as stated fails: after one response with status 500 the exhaustion
    flag is set, and a later advance call on a healthy network neither
    fetches nor changes anything. *)
Lemma failed_fetch_counterexample :
  let props := fiveChapters in
  let failing := fetcherOf decimalToNumber asciiTrim serverError in
  let working := fetcherOf decimalToNumber asciiTrim healthy in
  let s' := Reader.advance failing props page (init props) in
  nextChapterIndex s' = 1%Z /\ fetching s' = false /\
  lastChapter s' = true /\
  Reader.loadNextChapter working props page s' = (Returned tt, s', []) /\
  chapters (Reader.advance working props page (init props)) <> chapters (init props).
Proof.
  cbv zeta. repeat split; try reflexivity.
  intros H. vm_compute in H. discriminate H.
Qed.

(** *** The two versions compared *)

(** Where the fetch completes without throwing and the cursor is inside the
    table of contents, or the call returns at its guard, the two versions
    leave the same signals. *)
Lemma legacy_agrees (f : Fetcher) (props : ReaderProps) (dom : Dom) (s : State) :
  (fetching s = true \/ lastChapter s = true
   \/ exists c effs r,
       index (availableChapters props) (nextChapterIndex s) = Some c
       /\ f (value c) (text c) = (effs, Returned r)) ->
  Legacy.advance f props dom s = Reader.advance f props dom s.
Proof.
  unfold Legacy.advance, Reader.advance.
  destruct (fetching s) eqn:Hf.
  { intros _. rewrite legacy_reentrant, loadNextChapter_reentrant by (left; exact Hf).
    reflexivity. }
  destruct (lastChapter s) eqn:Hl.
  { intros _. rewrite legacy_reentrant, loadNextChapter_reentrant by (right; exact Hl).
    reflexivity. }
  intros [H|[H|(c & effs & r & Hi & Hfetch)]]; try discriminate H.
  destruct r as [r|].
  - destruct (le_lt_dec 3 (List.length (chapters s))) as [Hlen|Hlen].
    + rewrite (loadNextChapter_evict f props dom s c effs Hf Hl Hi r Hfetch Hlen).
      destruct (legacy_evict f props dom s c effs Hf Hl Hi r Hfetch Hlen) as (_ & E & _).
      rewrite E. reflexivity.
    + rewrite (loadNextChapter_append f props dom s c effs Hf Hl Hi r Hfetch Hlen).
      rewrite (legacy_append f props dom s c effs Hf Hl Hi r Hfetch Hlen).
      reflexivity.
  - rewrite (loadNextChapter_null f props dom s c effs Hf Hl Hi Hfetch).
    rewrite (legacy_null f props dom s c effs Hf Hl Hi Hfetch). reflexivity.
Qed.

(** Once the first version has faulted, its in-flight flag stays set and
    every later call returns at the guard. *)
Lemma legacy_stuck (f : Fetcher) (props : ReaderProps) (dom : Dom) (s : State) :
  Legacy.loadNextChapter f props dom (withFetching true s)
  = (Returned tt, withFetching true s, []).
Proof. apply legacy_reentrant. left. reflexivity. Qed.

(** C10.  The two versions are not equivalent.  With the cursor past the
    table of contents the refactored version sets the exhaustion flag and
    returns, whereas the first version sets the in-flight flag and faults on
    [chapterToFetch.value]; when the fetch throws, the refactored version
    logs and clears the in-flight flag, whereas the first version rejects
    and leaves it set, so that all its later calls are no-ops. *)
Theorem legacy_divergence :
  (let s := mkState 5 [record 2; record 3; record 4] false false None in
   let f := serve (record 4) in
   Reader.loadNextChapter f fiveChapters page s
   = (Returned tt, withLastChapter true s, [])
   /\ Legacy.loadNextChapter f fiveChapters page s
      = (Threw (TypeError "value"), withFetching true s, [])
   /\ lastChapter (Legacy.advance f fiveChapters page s) = false
   /\ fetching (Legacy.advance f fiveChapters page s) = true)
  /\
  (let s := init fiveChapters in
   let down := fetcherOf decimalToNumber asciiTrim offline in
   Reader.loadNextChapter down fiveChapters page s
   = (Returned tt, s, [HttpGet (chapterUrl 1); fetchError NetworkError])
   /\ Legacy.loadNextChapter down fiveChapters page s
      = (Threw NetworkError, withFetching true s, [HttpGet (chapterUrl 1)])
   /\ fetching (Reader.advance down fiveChapters page s) = false
   /\ fetching (Legacy.advance down fiveChapters page s) = true
   /\ Legacy.advance (serve (record 1)) fiveChapters page
                     (Legacy.advance down fiveChapters page s)
      = Legacy.advance down fiveChapters page s).
Proof. cbv zeta. repeat split. Qed.

(** *** Eviction and restoration together *)

(** One settled advance call that evicts: if the anchor element is found at
    top offset [T] before the mutation and at [T'] after it, the call ends
    by scrolling to [T' + (scrollY - T)], and no anchor is left behind. *)
Lemma eviction_then_restore
      (props : ReaderProps) (dom domAfter : Dom) (s : State) (l : Chapter)
      (r anchorChapter : ChapterData) (T T' : Q) :
  fetching s = false ->
  lastChapter s = false ->
  index (availableChapters props) (nextChapterIndex s) = Some l ->
  (3 <= List.length (chapters s))%nat ->
  nth_error (chapters s) 1 = Some anchorChapter ->
  chapterOffsetTop dom (id anchorChapter) = Some T ->
  chapterOffsetTop domAfter (id anchorChapter) = Some T' ->
  Reader.step props (Reader.AdvanceCall (serve r) dom domAfter) s
  = (mkState (nextChapterIndex s + 1) (skipn 1 (chapters s) ++ [r]) false false None,
     [HttpGet (value l);
      QueueMicrotask (mkAnchor (id anchorChapter) (scrollY dom - T));
      ScrollTo (T' + (scrollY dom - T)) Instant]).
Proof.
  intros Hf Hl Hi Hlen Hnth HT HT'.
  cbn [Reader.step]. unfold Reader.runTask, runTaskWith.
  rewrite (advance_serve props dom s l r Hf Hl Hi).
  apply Nat.leb_le in Hlen. rewrite Hlen.
  unfold anchorOf. rewrite Hnth, HT.
  cbn [app microtasksOf flat_map runMicrotasks].
  unfold Reader.restoreMicrotask, bind. cbn [anchor_id offset]. rewrite HT'.
  reflexivity.
Qed.

(** C8.  Scroll anchor restoration: when a scroll anchor [{id, offset}] is
    present as the window changes ([setChapters]), the effect on the window
    queues one microtask holding it; when that microtask runs and finds the
    anchor's element at top offset [T], it scrolls to exactly [T + offset]
    with behaviour [instant]; when it does not find the element it only
    warns; either way the microtask ends by clearing the anchor and touches
    no other signal, so that a later window mutation restores nothing.  A
    window mutation with no anchor present queues no restoration.  An
    eviction by the advance operation goes through this path: the anchor it
    sets is restored in the same turn of the event loop and cleared.  Both
    versions of the component do so. *)
Theorem anchor_restoration (s : State) (a : Anchor) :
  scrollAnchorInfo s = Some a ->
  Reader.restoreScrollPosition s = (Returned tt, s, [QueueMicrotask a]) /\
  Legacy.restoreEffect s = (Returned tt, s, [QueueMicrotask a]) /\
  (forall (dom : Dom) (s1 : State) (T : Q),
     chapterOffsetTop dom (anchor_id a) = Some T ->
     Reader.restoreMicrotask dom a s1
     = (Returned tt, withAnchor None s1, [ScrollTo (T + offset a) Instant])
     /\ stateOf (Legacy.restoreMicrotask dom a s1) = withAnchor None s1
     /\ filter (fun e => match e with ScrollTo _ _ => true | _ => false end)
               (effectsOf (Legacy.restoreMicrotask dom a s1))
        = [ScrollTo (T + offset a) Instant]) /\
  (forall (dom : Dom) (s1 : State),
     chapterOffsetTop dom (anchor_id a) = None ->
     stateOf (Reader.restoreMicrotask dom a s1) = withAnchor None s1
     /\ stateOf (Legacy.restoreMicrotask dom a s1) = withAnchor None s1
     /\ (forall e, In e (effectsOf (Reader.restoreMicrotask dom a s1)
                         ++ effectsOf (Legacy.restoreMicrotask dom a s1)) ->
                   exists args, e = ConsoleWarn args)) /\
  (forall (dom : Dom) (s1 : State),
     scrollAnchorInfo (stateOf (Reader.restoreMicrotask dom a s1)) = None
     /\ scrollAnchorInfo (stateOf (Legacy.restoreMicrotask dom a s1)) = None) /\
  (* the window mutation, run as a task of the event loop *)
  (forall (cs : list ChapterData) (domAfter : Dom) (T : Q),
     chapterOffsetTop domAfter (anchor_id a) = Some T ->
     Reader.runTask (Reader.setChapters cs) domAfter s
     = (mutated cs s, [QueueMicrotask a; ScrollTo (T + offset a) Instant])
     /\ fst (Legacy.runTask (Legacy.setChapters cs) domAfter s) = mutated cs s
     /\ filter isScrollTo (snd (Legacy.runTask (Legacy.setChapters cs) domAfter s))
        = [ScrollTo (T + offset a) Instant]) /\
  (forall (cs : list ChapterData) (domAfter : Dom),
     chapterOffsetTop domAfter (anchor_id a) = None ->
     fst (Reader.runTask (Reader.setChapters cs) domAfter s) = mutated cs s
     /\ filter isScrollTo (snd (Reader.runTask (Reader.setChapters cs) domAfter s)) = []
     /\ fst (Legacy.runTask (Legacy.setChapters cs) domAfter s) = mutated cs s
     /\ filter isScrollTo (snd (Legacy.runTask (Legacy.setChapters cs) domAfter s))
        = []) /\
  (* the anchor is not reapplied to a later mutation *)
  (forall (cs cs' : list ChapterData) (domAfter domLater : Dom),
     snd (Reader.runTask (Reader.setChapters cs') domLater
            (fst (Reader.runTask (Reader.setChapters cs) domAfter s))) = []
     /\ snd (Legacy.runTask (Legacy.setChapters cs') domLater
               (fst (Legacy.runTask (Legacy.setChapters cs) domAfter s))) = []) /\
  (* a mutation with no anchor present restores nothing *)
  (forall (s0 : State) (cs : list ChapterData) (domAfter : Dom),
     scrollAnchorInfo s0 = None ->
     Reader.runTask (Reader.setChapters cs) domAfter s0 = (mutated cs s0, [])
     /\ Legacy.runTask (Legacy.setChapters cs) domAfter s0 = (mutated cs s0, [])) /\
  (* the eviction of the advance operation, whatever anchor was left in
     [s0]: [updateChapters] sets the anchor, [setChapters] restores it *)
  (forall (props : ReaderProps) (dom domAfter : Dom) (s0 : State) (l : Chapter)
          (r anchorChapter : ChapterData) (T0 T' : Q),
     fetching s0 = false ->
     lastChapter s0 = false ->
     index (availableChapters props) (nextChapterIndex s0) = Some l ->
     (3 <= List.length (chapters s0))%nat ->
     nth_error (chapters s0) 1 = Some anchorChapter ->
     chapterOffsetTop dom (id anchorChapter) = Some T0 ->
     chapterOffsetTop domAfter (id anchorChapter) = Some T' ->
     Reader.runTask (Reader.updateChapters dom r) domAfter s0
     = (mutated (skipn 1 (chapters s0) ++ [r]) s0,
        [QueueMicrotask (mkAnchor (id anchorChapter) (scrollY dom - T0));
         ScrollTo (T' + (scrollY dom - T0)) Instant])
     /\ Reader.step props (Reader.AdvanceCall (serve r) dom domAfter) s0
        = (mkState (nextChapterIndex s0 + 1) (skipn 1 (chapters s0) ++ [r])
                   false false None,
           [HttpGet (value l);
            QueueMicrotask (mkAnchor (id anchorChapter) (scrollY dom - T0));
            ScrollTo (T' + (scrollY dom - T0)) Instant])
     /\ fst (legacyStep props (Reader.AdvanceCall (serve r) dom domAfter) s0)
        = mkState (nextChapterIndex s0 + 1) (skipn 1 (chapters s0) ++ [r])
                  false false None
     /\ filter isScrollTo
               (snd (legacyStep props (Reader.AdvanceCall (serve r) dom domAfter) s0))
        = [ScrollTo (T' + (scrollY dom - T0)) Instant]).
Proof.
  intros H.
  split; [unfold Reader.restoreScrollPosition, bind, read; rewrite H; reflexivity|].
  split; [unfold Legacy.restoreEffect, bind, read; rewrite H; reflexivity|].
  split.
  { intros dom s1 T HT.
    unfold Reader.restoreMicrotask, Legacy.restoreMicrotask, bind. rewrite HT.
    split; [reflexivity|]. split; reflexivity. }
  split.
  { intros dom s1 HT.
    unfold Reader.restoreMicrotask, Legacy.restoreMicrotask, bind. rewrite HT.
    split; [reflexivity|]. split; [reflexivity|].
    unfold effectsOf. cbn. intros e [He|[He|[]]]; subst e; eexists; reflexivity. }
  split.
  { intros dom s1.
    unfold Reader.restoreMicrotask, Legacy.restoreMicrotask, bind.
    destruct (chapterOffsetTop dom (anchor_id a)); split; reflexivity. }
  split; [intros cs domAfter T HT; apply (setChapters_found s a H cs domAfter T HT)|].
  split; [intros cs domAfter HT; apply (setChapters_not_found s a H cs domAfter HT)|].
  split.
  { intros cs cs' domAfter domLater.
    destruct (setChapters_clears s a H cs domAfter) as [C1 C2].
    destruct (setChapters_no_anchor _ cs' domLater C1) as [E1 _].
    destruct (setChapters_no_anchor _ cs' domLater C2) as [_ E2].
    rewrite E1, E2. split; reflexivity. }
  split; [intros s0 cs domAfter H0; apply (setChapters_no_anchor s0 cs domAfter H0)|].
  intros props dom domAfter s0 l r anchorChapter T0 T' Hf Hl Hi Hlen Hnth HT HT'.
  split.
  { unfold Reader.runTask, runTaskWith.
    rewrite (updateChapters_evict dom r s0 Hlen).
    unfold anchorOf. rewrite Hnth, HT.
    cbn [microtasksOf flat_map app runMicrotasks].
    unfold Reader.restoreMicrotask, bind. cbn [anchor_id offset]. rewrite HT'.
    reflexivity. }
  split.
  { apply (eviction_then_restore props dom domAfter s0 l r anchorChapter T0 T');
      assumption. }
  apply (legacy_eviction_then_restore props dom domAfter s0 l r anchorChapter T0 T');
    assumption.
Qed.

(** The scenario of the specification: anchor [{id: c1, offset: 40}], the
    element of c1 at top offset 1000 after the mutation: scroll to 1040. *)
Lemma anchor_restoration_witness :
  let a := mkAnchor (id (record 1)) 40 in
  let s := mkState 4 [record 1; record 2; record 3] false false (Some a) in
  let dom := mkDom 1500 (fun n => match n with
                                  | Num q => if Qeq_bool q 101 then Some 1000%Q else None
                                  | NaN => None
                                  end) in
  Reader.restoreScrollPosition s = (Returned tt, s, [QueueMicrotask a]) /\
  Reader.restoreMicrotask dom a s
  = (Returned tt, withAnchor None s, [ScrollTo 1040 Instant]) /\
  Reader.runTask (Reader.setChapters [record 1; record 2; record 3]) dom s
  = (withAnchor None s, [QueueMicrotask a; ScrollTo 1040 Instant]).
Proof.
  cbv zeta.
  destruct (anchor_restoration
              (mkState 4 [record 1; record 2; record 3] false false
                       (Some (mkAnchor (id (record 1)) 40)))
              (mkAnchor (id (record 1)) 40) eq_refl) as (H1 & _ & H3 & _ & _ & H6 & _).
  split; [exact H1|].
  split.
  - exact (proj1 (H3 (mkDom 1500 (fun n => match n with
                                         | Num q => if Qeq_bool q 101 then Some 1000%Q else None
                                         | NaN => None
                                         end))
                   (mkState 4 [record 1; record 2; record 3] false false
                            (Some (mkAnchor (id (record 1)) 40)))
                   1000%Q eq_refl)).
  - exact (proj1 (H6 [record 1; record 2; record 3]
                     (mkDom 1500 (fun n => match n with
                                         | Num q => if Qeq_bool q 101 then Some 1000%Q else None
                                         | NaN => None
                                         end))
                     1000%Q eq_refl)).
Defined.

(** * Further properties of the engine *)

(** ** Scroll trigger *)

Lemma handleScroll_cases (A : Arith) (el : option (DOMRect A)) (vp : Viewport A) (f : Fetcher)
      (props : ReaderProps) (dom : Dom) (s : State) :
  Reader.handleScroll el vp f props dom s = (Returned tt, s, [])
  \/ (fetching s = false /\ lastChapter s = false
      /\ ltb A (Reader.SCROLL_TRIGGER_PERCENTAGE A)
             (Reader.calculateScrollPercentage el vp) = true
      /\ Reader.handleScroll el vp f props dom s
         = (Returned tt, stateOf (Reader.loadNextChapter f props dom s),
            effectsOf (Reader.loadNextChapter f props dom s))).
Proof.
  unfold Reader.handleScroll, bind, read.
  destruct (lastChapter s) eqn:Hl; [left; reflexivity|].
  destruct (fetching s) eqn:Hf; [left; reflexivity|].
  cbn [orb].
  destruct (ltb A (Reader.SCROLL_TRIGGER_PERCENTAGE A)
                (Reader.calculateScrollPercentage el vp)) eqn:Hp.
  - right. split; [reflexivity|]. split; [reflexivity|]. split; [reflexivity|].
    unfold detached.
    destruct (Reader.loadNextChapter f props dom s) as [[r s1] e1]. reflexivity.
  - left. reflexivity.
Qed.

(** X1.  A scroll event whose computed percentage does not exceed 60 (the
    test [scrollPercentage > 60] is false) does nothing in either version
    of the component: no signal changes, nothing is fetched or logged,
    whatever the flags are.  In particular nothing happens while the chapter
    element is not mounted (the percentage is then 0), in IEEE 754 and in
    exact arithmetic alike. *)
Theorem scroll_below_threshold
        (A : Arith) (el : option (DOMRect A)) (vp : Viewport A) (f : Fetcher) (props : ReaderProps)
        (dom : Dom) (s : State) :
  ltb A (n60 A) (Reader.calculateScrollPercentage el vp) = false ->
  Reader.handleScroll el vp f props dom s = (Returned tt, s, []) /\
  Legacy.handleScroll el vp f props dom s = (Returned tt, s, []) /\
  (ltb A (n60 A) (n0 A) = false ->
   Reader.handleScroll None vp f props dom s = (Returned tt, s, [])) /\
  (forall vp' : Viewport ieee,
     Reader.handleScroll None vp' f props dom s = (Returned tt, s, [])) /\
  (forall vp' : Viewport exact,
     Reader.handleScroll None vp' f props dom s = (Returned tt, s, [])).
Proof.
  intros H.
  unfold Reader.handleScroll, Legacy.handleScroll, bind, read.
  change (Legacy.calculateScrollPercentage el vp)
    with (Reader.calculateScrollPercentage el vp).
  unfold Reader.SCROLL_TRIGGER_PERCENTAGE. rewrite H.
  cbn [negb andb Reader.calculateScrollPercentage].
  split; [destruct (lastChapter s); destruct (fetching s); reflexivity|].
  split; [destruct (lastChapter s); destruct (fetching s); reflexivity|].
  split; [intros H0; rewrite H0;
          destruct (lastChapter s); destruct (fetching s); reflexivity|].
  split; intros vp'; destruct (lastChapter s); destruct (fetching s); reflexivity.
Qed.

Lemma scroll_below_threshold_witness :
  (let el := Some (mkRect ieee (-1.8) 3) in
   let vp := mkViewport ieee 800 800 in
   Reader.handleScroll el vp (serve (record 1)) fiveChapters page (init fiveChapters)
   = (Returned tt, init fiveChapters, []))%float.
Proof.
  cbv zeta.
  refine (proj1 (scroll_below_threshold ieee
                   (Some (mkRect ieee (-1.8) 3)) (mkViewport ieee 800 800)
                   (serve (record 1)) fiveChapters page (init fiveChapters) _))%float.
  reflexivity.
Defined.

(** X2.  A scroll event whose computed percentage exceeds 60 (the test
    [scrollPercentage > 60] of the host arithmetic is true), while no fetch
    is in flight and the reader is not exhausted, does exactly what one call
    of the advance operation does: same resulting signals, same effects; the
    handler itself never throws. *)
Theorem scroll_above_threshold
        (A : Arith) (el : option (DOMRect A)) (vp : Viewport A) (f : Fetcher) (props : ReaderProps)
        (dom : Dom) (s : State) :
  ltb A (n60 A) (Reader.calculateScrollPercentage el vp) = true ->
  fetching s = false ->
  lastChapter s = false ->
  Reader.handleScroll el vp f props dom s
  = (Returned tt, stateOf (Reader.loadNextChapter f props dom s),
     effectsOf (Reader.loadNextChapter f props dom s)).
Proof.
  intros Hp Hf Hl.
  unfold Reader.handleScroll, bind, read. rewrite Hf, Hl. cbn [orb].
  unfold Reader.SCROLL_TRIGGER_PERCENTAGE. rewrite Hp. unfold detached.
  destruct (Reader.loadNextChapter f props dom s) as [[r s1] e1]. reflexivity.
Qed.

Lemma scroll_above_threshold_witness :
  (let el := Some (mkRect ieee (-700) 1000) in
   let vp := mkViewport ieee 800 800 in
   Reader.handleScroll el vp (serve (record 1)) fiveChapters page (init fiveChapters)
   = (Returned tt, mkState 2 [record 0; record 1] false false None,
      [HttpGet (chapterUrl 1)]))%float.
Proof.
  cbv zeta.
  exact (scroll_above_threshold ieee
           (Some (mkRect ieee (-700) 1000)) (mkViewport ieee 800 800)
           (serve (record 1)) fiveChapters page (init fiveChapters)
           eq_refl eq_refl eq_refl)%float.
Defined.


(** ** What one settled event does to the signals *)

Lemma microtasksOf_app (e1 e2 : list Effect) :
  microtasksOf (e1 ++ e2) = microtasksOf e1 ++ microtasksOf e2.
Proof. unfold microtasksOf. apply flat_map_app. Qed.

Lemma microtasksOf_queued (a : Anchor) (effs : list Effect) :
  In (QueueMicrotask a) effs -> microtasksOf effs <> [].
Proof.
  intros H E.
  assert (Ha : In a (microtasksOf effs)).
  { unfold microtasksOf. apply in_flat_map. exists (QueueMicrotask a).
    split; [exact H | left; reflexivity]. }
  rewrite E in Ha. destruct Ha.
Qed.

(** One call of the advance operation with no fetch in flight: it returns,
    clears the in-flight flag, and either leaves cursor and window alone or
    moves both by one chapter. *)
Lemma loadNextChapter_outcome (f : Fetcher) (props : ReaderProps) (dom : Dom)
      (s : State) :
  fetching s = false ->
  let r := Reader.loadNextChapter f props dom s in
  let s' := stateOf r in
  completionOf r = Returned tt /\
  fetching s' = false /\
  ((nextChapterIndex s' = nextChapterIndex s /\ chapters s' = chapters s
    /\ (lastChapter s' = lastChapter s \/ lastChapter s' = true)
    /\ (scrollAnchorInfo s' = scrollAnchorInfo s \/ scrollAnchorInfo s' = None))
   \/
   (lastChapter s = false /\ lastChapter s' = false
    /\ (0 <= nextChapterIndex s < Z.of_nat (List.length (availableChapters props)))%Z
    /\ nextChapterIndex s' = (nextChapterIndex s + 1)%Z
    /\ (exists r0, chapters s'
                   = if (3 <=? List.length (chapters s))%nat
                     then skipn 1 (chapters s) ++ [r0] else chapters s ++ [r0])
    /\ (scrollAnchorInfo s' = None
        \/ exists a, In (QueueMicrotask a) (effectsOf r)))).
Proof.
  intros Hf. cbv zeta.
  destruct (lastChapter s) eqn:Hl.
  { rewrite loadNextChapter_reentrant by (right; exact Hl).
    unfold stateOf, completionOf. cbn [fst snd].
    split; [reflexivity|]. split; [exact Hf|]. left.
    repeat split; try reflexivity; left; try reflexivity; exact Hl. }
  destruct (index (availableChapters props) (nextChapterIndex s)) as [c|] eqn:Hi.
  - pose proof (index_Some_range _ _ _ Hi) as Hr.
    destruct (f (value c) (text c)) as [effs [[r|]|e]] eqn:Hfetch.
    + destruct (Nat.leb_spec 3 (List.length (chapters s))) as [Hlen|Hlen].
      * rewrite (loadNextChapter_evict f props dom s c effs Hf Hl Hi r Hfetch Hlen).
        unfold stateOf, completionOf, effectsOf. cbn [fst snd]. signals.
        split; [reflexivity|]. split; [reflexivity|]. right.
        split; [reflexivity|]. split; [reflexivity|]. split; [exact Hr|].
        split; [reflexivity|]. split; [exists r; reflexivity|].
        destruct (anchorOf dom (chapters s)) as [a|]; [right | left; reflexivity].
        exists a. apply in_or_app. right. left. reflexivity.
      * rewrite (loadNextChapter_append f props dom s c effs Hf Hl Hi r Hfetch Hlen).
        unfold stateOf, completionOf, effectsOf. cbn [fst snd]. signals.
        split; [reflexivity|]. split; [reflexivity|]. right.
        split; [reflexivity|]. split; [reflexivity|]. split; [exact Hr|].
        split; [reflexivity|]. split; [exists r; reflexivity|]. left. reflexivity.
    + rewrite (loadNextChapter_null f props dom s c effs Hf Hl Hi Hfetch).
      unfold stateOf, completionOf. cbn [fst snd]. signals.
      split; [reflexivity|]. split; [reflexivity|]. left.
      repeat split; try reflexivity; right; reflexivity.
    + rewrite (loadNextChapter_threw f props dom s c effs Hf Hl Hi e Hfetch).
      unfold stateOf, completionOf. cbn [fst snd]. signals.
      split; [reflexivity|]. split; [reflexivity|]. left.
      repeat split; try reflexivity; left; reflexivity.
  - rewrite loadNextChapter_out_of_range; [| exact Hf | exact Hl |].
    + unfold stateOf, completionOf, withLastChapter. cbn [fst snd]. signals.
      split; [reflexivity|]. split; [exact Hf|]. left.
      repeat split; try reflexivity; [right | left]; reflexivity.
    + intros Hr. apply index_range_Some in Hr. destruct Hr as [x Hx].
      rewrite Hx in Hi. discriminate Hi.
Qed.

Lemma runMicrotasks_anchor (dom : Dom) (queue : list Anchor) (s : State) :
  queue <> [] ->
  scrollAnchorInfo (stateOf (runMicrotasks Reader.restoreMicrotask dom queue s)) = None.
Proof.
  revert s. induction queue as [|a rest IH]; intros s Hq; [contradiction Hq; reflexivity|].
  cbn [runMicrotasks]. unfold bind.
  pose proof (restoreMicrotask_state dom a s) as Hm.
  destruct (Reader.restoreMicrotask dom a s) as [[r s1] e1] eqn:Em.
  unfold stateOf in Hm. cbn [fst snd] in Hm. subst s1.
  assert (Hr : r = Returned tt).
  { revert Em. unfold Reader.restoreMicrotask, bind.
    destruct (chapterOffsetTop dom (anchor_id a)); intros E; inversion E;
      reflexivity. }
  subst r.
  destruct rest as [|b rest'].
  - reflexivity.
  - specialize (IH (withAnchor None s)).
    destruct (runMicrotasks Reader.restoreMicrotask dom (b :: rest') (withAnchor None s))
      as [[r2 s2] e2].
    unfold stateOf in *. cbn [fst snd] in *. apply IH. discriminate.
Qed.

Lemma runTask_anchor (task : Act unit) (domAfter : Dom) (s : State) :
  scrollAnchorInfo (stateOf (task s)) = None
  \/ microtasksOf (effectsOf (task s)) <> [] ->
  scrollAnchorInfo (fst (Reader.runTask task domAfter s)) = None.
Proof.
  unfold Reader.runTask, runTaskWith.
  destruct (task s) as [[r s1] e1]. unfold stateOf, effectsOf. cbn [fst snd].
  intros H.
  destruct (microtasksOf e1) as [|a q] eqn:Eq.
  - cbn [runMicrotasks ret fst snd]. destruct H as [H|H]; [exact H | contradiction H; reflexivity].
  - pose proof (runMicrotasks_anchor domAfter (a :: q) s1) as Ha.
    destruct (runMicrotasks Reader.restoreMicrotask domAfter (a :: q) s1) as [[r2 s2] e2].
    unfold stateOf in Ha. cbn [fst snd] in *. apply Ha. discriminate.
Qed.

(** The same for one settled event of the refactored component, microtasks
    included. *)
Lemma step_outcome (props : ReaderProps) (ev : Reader.Event) (s : State) :
  fetching s = false ->
  scrollAnchorInfo s = None ->
  let s' := fst (Reader.step props ev s) in
  fetching s' = false /\ scrollAnchorInfo s' = None /\
  ((nextChapterIndex s' = nextChapterIndex s /\ chapters s' = chapters s
    /\ (lastChapter s' = lastChapter s \/ lastChapter s' = true))
   \/
   (lastChapter s = false /\ lastChapter s' = false
    /\ (0 <= nextChapterIndex s < Z.of_nat (List.length (availableChapters props)))%Z
    /\ nextChapterIndex s' = (nextChapterIndex s + 1)%Z
    /\ (exists r0, chapters s'
                   = if (3 <=? List.length (chapters s))%nat
                     then skipn 1 (chapters s) ++ [r0] else chapters s ++ [r0]))).
Proof.
  intros Hf Ha. cbv zeta.
  assert (Hload : forall f dom domAfter,
             let s' := fst (Reader.runTask (Reader.loadNextChapter f props dom) domAfter s) in
             fetching s' = false /\ scrollAnchorInfo s' = None /\
             ((nextChapterIndex s' = nextChapterIndex s /\ chapters s' = chapters s
               /\ (lastChapter s' = lastChapter s \/ lastChapter s' = true))
              \/
              (lastChapter s = false /\ lastChapter s' = false
               /\ (0 <= nextChapterIndex s
                   < Z.of_nat (List.length (availableChapters props)))%Z
               /\ nextChapterIndex s' = (nextChapterIndex s + 1)%Z
               /\ (exists r0, chapters s'
                              = if (3 <=? List.length (chapters s))%nat
                                then skipn 1 (chapters s) ++ [r0]
                                else chapters s ++ [r0])))).
  { intros f dom domAfter. cbv zeta.
    destruct (runTask_signals (Reader.loadNextChapter f props dom) domAfter s)
      as (Ec & El & Ei & Efl).
    destruct (loadNextChapter_outcome f props dom s Hf) as (_ & Hf' & Hcases).
    rewrite Ec, El, Ei, Efl.
    split; [exact Hf'|]. split.
    - apply runTask_anchor.
      destruct Hcases as [(_ & _ & _ & [Hs|Hs])|(_ & _ & _ & _ & _ & [Hs|[a Hs]])].
      + left. rewrite Hs. exact Ha.
      + left. exact Hs.
      + left. exact Hs.
      + right. apply (microtasksOf_queued a). exact Hs.
    - destruct Hcases as [(H1 & H2 & H3 & _)|(H1 & H2 & H3 & H4 & H5 & _)].
      + left. split; [exact H1|]. split; [exact H2 | exact H3].
      + right. split; [exact H1|]. split; [exact H2|]. split; [exact H3|].
        split; [exact H4 | exact H5]. }
  destruct ev as [A el vp f dom domAfter|f dom domAfter]; cbn [Reader.step].
  - destruct (handleScroll_cases A el vp f props dom s) as [E|(_ & _ & _ & E)].
    + unfold Reader.runTask, runTaskWith. rewrite E. cbn.
      split; [exact Hf|]. split; [exact Ha|]. left.
      repeat split; left; reflexivity.
    + specialize (Hload f dom domAfter). cbv zeta in Hload.
      unfold Reader.runTask, runTaskWith in *. rewrite E.
      destruct (Reader.loadNextChapter f props dom s) as [[r s1] e1].
      unfold stateOf, effectsOf. cbn [fst snd] in *. exact Hload.
  - apply Hload.
Qed.

(** ** Invariants of a session *)

Lemma step_settled (props : ReaderProps) (c0 : Z) (ev : Reader.Event) (s : State) :
  settled props c0 s -> settled props c0 (fst (Reader.step props ev s)).
Proof.
  intros (Hf & Ha & Hc & Hw).
  destruct (step_outcome props ev s Hf Ha) as (Hf' & Ha' & Hcases).
  unfold settled. split; [exact Hf'|]. split; [exact Ha'|].
  destruct Hcases as [(Ei & Ec & _)|(_ & _ & Hr & Ei & [r0 Ec])].
  - rewrite Ei, Ec. split; assumption.
  - rewrite Ei, Ec. split; [lia|].
    destruct (Nat.leb_spec 3 (List.length (chapters s))) as [Hlen|Hlen].
    + rewrite slide_length by lia. lia.
    + rewrite length_app. cbn [List.length]. lia.
Qed.

Lemma run_settled (props : ReaderProps) (c0 : Z) (evs : list Reader.Event) (s : State) :
  settled props c0 s -> settled props c0 (Reader.run props evs s).
Proof.
  revert s. induction evs as [|ev rest IH]; intros s H; cbn [Reader.run].
  - exact H.
  - apply IH. apply step_settled. exact H.
Qed.

Lemma init_settled (props : ReaderProps) :
  settled props (initialChapterIndex props + 1) (init props).
Proof.
  unfold settled, init. cbn [fetching scrollAnchorInfo nextChapterIndex chapters List.length].
  repeat split; try reflexivity; lia.
Qed.

(** X3.  The refactored reader is never left blocked: after any sequence of
    scroll events and advance calls, whatever each fetch did (record, null
    or exception), no fetch is marked in flight and no scroll anchor is
    left pending for a later mutation. *)
Theorem reader_is_quiescent (props : ReaderProps) (evs : list Reader.Event) :
  fetching (Reader.run props evs (init props)) = false /\
  scrollAnchorInfo (Reader.run props evs (init props)) = None.
Proof.
  destruct (run_settled props _ evs _ (init_settled props)) as (Hf & Ha & _).
  split; assumption.
Qed.

(** X4.  Cursor and window move together: in any reachable state, a settled
    event either leaves both the cursor and the window as they were, or
    moves the cursor by exactly one, from a position inside the table of
    contents, and puts one new record at the end of the window (dropping
    the first element when the window was full). *)
Theorem cursor_and_window_in_lockstep
        (props : ReaderProps) (evs : list Reader.Event) (ev : Reader.Event) :
  let s := Reader.run props evs (init props) in
  let s' := fst (Reader.step props ev s) in
  (nextChapterIndex s' = nextChapterIndex s /\ chapters s' = chapters s)
  \/
  ((0 <= nextChapterIndex s < Z.of_nat (List.length (availableChapters props)))%Z
   /\ nextChapterIndex s' = (nextChapterIndex s + 1)%Z
   /\ exists r, chapters s' = if (3 <=? List.length (chapters s))%nat
                              then skipn 1 (chapters s) ++ [r]
                              else chapters s ++ [r]).
Proof.
  cbv zeta.
  destruct (run_settled props _ evs _ (init_settled props)) as (Hf & Ha & _).
  destruct (step_outcome props ev _ Hf Ha)
    as (_ & _ & [(Ei & Ec & _)|(_ & _ & Hr & Ei & Ec)]).
  - left. split; assumption.
  - right. split; [exact Hr|]. split; assumption.
Qed.

Lemma run_app (props : ReaderProps) (evs1 evs2 : list Reader.Event) (s : State) :
  Reader.run props (evs1 ++ evs2) s = Reader.run props evs2 (Reader.run props evs1 s).
Proof.
  revert s. induction evs1 as [|ev rest IH]; intros s; cbn [app Reader.run].
  - reflexivity.
  - apply IH.
Qed.

Lemma step_cursor_mono (props : ReaderProps) (c0 : Z) (ev : Reader.Event) (s : State) :
  settled props c0 s ->
  (nextChapterIndex s <= nextChapterIndex (fst (Reader.step props ev s))
   <= nextChapterIndex s + 1)%Z.
Proof.
  intros (Hf & Ha & _).
  destruct (step_outcome props ev s Hf Ha) as (_ & _ & [(Ei & _)|(_ & _ & _ & Ei & _)]);
    rewrite Ei; lia.
Qed.

Lemma run_cursor_mono (props : ReaderProps) (c0 : Z) (evs : list Reader.Event)
      (s : State) :
  settled props c0 s ->
  (nextChapterIndex s <= nextChapterIndex (Reader.run props evs s))%Z.
Proof.
  revert s. induction evs as [|ev rest IH]; intros s H; cbn [Reader.run].
  - lia.
  - pose proof (step_cursor_mono props c0 ev s H) as H1.
    pose proof (IH _ (step_settled props c0 ev s H)) as H2. lia.
Qed.

(** X5.  Over a whole session the cursor never decreases (each event leaves
    it or advances it by one, so it is at least what it was after any
    earlier part of the session) and never passes the end of the table of
    contents (unless it started beyond it), and the window length is
    determined by the number of chapters fetched so far:
    [min(3, 1 + fetched)]. *)
Theorem cursor_bounds_and_window_length
        (props : ReaderProps) (evs : list Reader.Event) :
  let c0 := (initialChapterIndex props + 1)%Z in
  let s := Reader.run props evs (init props) in
  (c0 <= nextChapterIndex s)%Z /\
  (nextChapterIndex s <= Z.max c0 (Z.of_nat (List.length (availableChapters props))))%Z /\
  Z.of_nat (List.length (chapters s)) = Z.min 3 (1 + (nextChapterIndex s - c0))%Z /\
  (forall ev : Reader.Event,
     (nextChapterIndex s <= nextChapterIndex (fst (Reader.step props ev s))
      <= nextChapterIndex s + 1)%Z) /\
  (forall later : list Reader.Event,
     (nextChapterIndex s
      <= nextChapterIndex (Reader.run props (evs ++ later) (init props)))%Z).
Proof.
  cbv zeta.
  pose proof (run_settled props _ evs _ (init_settled props)) as Hs.
  destruct Hs as (Hf & Ha & Hc & Hw).
  split; [apply Hc|]. split; [apply Hc|]. split; [exact Hw|].
  assert (Hs : settled props (initialChapterIndex props + 1)
                       (Reader.run props evs (init props)))
    by (unfold settled; split; [exact Hf|]; split; [exact Ha|]; split; assumption).
  split.
  - intros ev. apply (step_cursor_mono props _ ev _ Hs).
  - intros later. rewrite run_app. apply (run_cursor_mono props _ later _ Hs).
Qed.

(** ** Reading on: a run of successful fetches *)

Lemma lastn_short {A : Type} (n : nat) (l : list A) :
  (List.length l <= n)%nat -> lastn n l = l.
Proof.
  intros H. unfold lastn. replace (List.length l - n)%nat with 0%nat by lia.
  reflexivity.
Qed.

(** Sliding a window of at most three elements keeps the last three of
    everything appended so far. *)
Lemma slide_lastn (w rs : list ChapterData) (r : ChapterData) :
  (List.length w <= 3)%nat ->
  lastn 3 ((if (3 <=? List.length w)%nat then skipn 1 w ++ [r] else w ++ [r]) ++ rs)
  = lastn 3 (w ++ r :: rs).
Proof.
  intros H.
  destruct (Nat.leb_spec 3 (List.length w)) as [Hlen|Hlen].
  - destruct w as [|x [|y [|z [|u w']]]]; cbn [List.length] in *; try lia.
    unfold lastn. cbn [skipn app List.length].
    replace (S (S (S (List.length rs))) - 3)%nat with (List.length rs) by lia.
    replace (S (S (S (S (List.length rs)))) - 3)%nat with (S (List.length rs)) by lia.
    reflexivity.
  - rewrite <- app_assoc. reflexivity.
Qed.

Lemma run_serveAll (props : ReaderProps) (calls : list (ChapterData * Dom * Dom))
      (s : State) :
  fetching s = false ->
  lastChapter s = false ->
  (List.length (chapters s) <= 3)%nat ->
  (0 <= nextChapterIndex s)%Z ->
  (nextChapterIndex s + Z.of_nat (List.length calls)
   <= Z.of_nat (List.length (availableChapters props)))%Z ->
  let s' := Reader.run props (serveAll calls) s in
  chapters s' = lastn 3 (chapters s ++ map (fun call => fst (fst call)) calls) /\
  nextChapterIndex s' = (nextChapterIndex s + Z.of_nat (List.length calls))%Z /\
  lastChapter s' = false /\ fetching s' = false.
Proof.
  cbv zeta.
  revert s. induction calls as [|[[r dom] domAfter] rest IH]; intros s Hf Hl Hw H0 Hn.
  - cbn [serveAll map Reader.run List.length Z.of_nat].
    rewrite app_nil_r, lastn_short by exact Hw.
    repeat split; try assumption. lia.
  - cbn [serveAll map Reader.run fst]. fold (serveAll rest).
    cbn [List.length] in Hn.
    destruct (index_range_Some (availableChapters props) (nextChapterIndex s))
      as [l Hi]; [lia|].
    destruct (step_serve props dom domAfter s l r Hf Hl Hi) as [E _]. rewrite E.
    assert (Hw' : (List.length (if (3 <=? List.length (chapters s))%nat
                                then skipn 1 (chapters s) ++ [r]
                                else chapters s ++ [r]) <= 3)%nat).
    { destruct (Nat.leb_spec 3 (List.length (chapters s))).
      - rewrite slide_length by lia. lia.
      - rewrite length_app. cbn [List.length]. lia. }
    destruct (IH (mkState (nextChapterIndex s + 1)
                          (if (3 <=? List.length (chapters s))%nat
                           then skipn 1 (chapters s) ++ [r]
                           else chapters s ++ [r])
                          false false None))
      as (Ec & Ei & El' & Ef'); signals; try reflexivity; try lia; try exact Hw'.
    rewrite Ec, Ei. rewrite slide_lastn by exact Hw.
    split; [reflexivity|]. split; [cbn [List.length]; lia|]. split; assumption.
Qed.

(** X6.  Reading on: from any state with nothing in flight, not exhausted
    and a window of at most three records, a run of advance calls whose
    fetches all succeed (the table of contents being long enough) leaves in
    the window the last three of all the records loaded so far, in loading
    order, and moves the cursor by the number of calls. *)
Theorem window_keeps_last_three
        (props : ReaderProps) (calls : list (ChapterData * Dom * Dom)) (s : State) :
  fetching s = false ->
  lastChapter s = false ->
  (List.length (chapters s) <= 3)%nat ->
  (0 <= nextChapterIndex s)%Z ->
  (nextChapterIndex s + Z.of_nat (List.length calls)
   <= Z.of_nat (List.length (availableChapters props)))%Z ->
  let records := map (fun call => fst (fst call)) calls in
  let s' := Reader.run props (serveAll calls) s in
  chapters s' = skipn (List.length (chapters s ++ records) - 3) (chapters s ++ records) /\
  nextChapterIndex s' = (nextChapterIndex s + Z.of_nat (List.length calls))%Z.
Proof.
  intros Hf Hl Hw H0 Hn. cbv zeta.
  destruct (run_serveAll props calls s Hf Hl Hw H0 Hn) as (Ec & Ei & _).
  split; [exact Ec | exact Ei].
Qed.

Lemma window_keeps_last_three_witness :
  let calls := [(record 1, page, page); (record 2, page, page);
                (record 3, page, page); (record 4, page, page)] in
  let s' := Reader.run fiveChapters (serveAll calls) (init fiveChapters) in
  chapters s' = [record 2; record 3; record 4] /\ nextChapterIndex s' = 5%Z.
Proof.
  cbv zeta.
  apply (window_keeps_last_three fiveChapters
           [(record 1, page, page); (record 2, page, page);
            (record 3, page, page); (record 4, page, page)]
           (init fiveChapters)); [reflexivity | reflexivity | | | ]; cbn; lia.
Defined.

(** X7.  The end of the book: once the reader, opened inside the table of
    contents, has fetched every remaining chapter, the cursor equals the
    length of the table of contents, and the next advance call fetches
    nothing: it only sets the exhaustion flag, leaving window, cursor and
    in-flight flag as they are. *)
Theorem end_of_book
        (props : ReaderProps) (calls : list (ChapterData * Dom * Dom))
        (f : Fetcher) (dom : Dom) :
  (0 <= initialChapterIndex props + 1)%Z ->
  (initialChapterIndex props + 1 + Z.of_nat (List.length calls)
   = Z.of_nat (List.length (availableChapters props)))%Z ->
  let s := Reader.run props (serveAll calls) (init props) in
  nextChapterIndex s = Z.of_nat (List.length (availableChapters props)) /\
  Reader.loadNextChapter f props dom s = (Returned tt, withLastChapter true s, []).
Proof.
  intros H0 Hn. cbv zeta.
  destruct (run_serveAll props calls (init props) eq_refl eq_refl) as (_ & Ei & El & Ef).
  - cbn. lia.
  - exact H0.
  - cbn [init nextChapterIndex]. lia.
  - cbn [init nextChapterIndex] in Ei. split; [lia|].
    apply loadNextChapter_out_of_range; [exact Ef | exact El | lia].
Qed.

Lemma end_of_book_witness :
  let calls := [(record 1, page, page); (record 2, page, page);
                (record 3, page, page); (record 4, page, page)] in
  let s := Reader.run fiveChapters (serveAll calls) (init fiveChapters) in
  Reader.loadNextChapter (serve (record 4)) fiveChapters page s
  = (Returned tt, withLastChapter true s, []).
Proof.
  cbv zeta.
  apply (end_of_book fiveChapters
           [(record 1, page, page); (record 2, page, page);
            (record 3, page, page); (record 4, page, page)]
           (serve (record 4)) page); cbn; lia.
Defined.

(** ** More on the fetcher and the parser *)

Lemma extract_logs_warn (StringToNumber : string -> JSNum) (trim : string -> string)
      (doc : Fetch.Document) (u : string) :
  fst (Fetch.extractChapterData StringToNumber trim doc u) = []
  \/ fst (Fetch.extractChapterData StringToNumber trim doc u) = [Fetch.contentWarning].
Proof.
  rewrite extract_logs. destruct (includes _ _); [right | left]; reflexivity.
Qed.

(** The effects of one fetch, by kind of reply. *)
Lemma fetch_effects (StringToNumber : string -> JSNum) (trim : string -> string)
      (url title : string) (reply : Fetch.HttpResult) :
  exists rest,
    fst (Fetch.fetchChapter StringToNumber trim url title reply) = HttpGet url :: rest
    /\ filter isHttpGet rest = []
    /\ filter isNavigate rest
       = match reply with
         | Fetch.Response status _ =>
             if Fetch.ok status then [] else
               if (status =? 403)%Z then [Navigate url] else []
         | Fetch.NetworkFailure => []
         end
    /\ microtasksOf rest = [].
Proof.
  destruct reply as [|status body].
  - exists []. repeat split.
  - destruct (Fetch.ok status) eqn:Hok.
    + unfold Fetch.fetchChapter. rewrite Hok. destruct body as [doc|].
      * pose proof (extract_logs_warn StringToNumber trim doc url) as Hlogs.
        destruct (Fetch.extractChapterData StringToNumber trim doc url) as [logs data].
        cbn [fst] in *. exists logs.
        split; [reflexivity|].
        destruct Hlogs as [E|E]; rewrite E; repeat split.
      * exists []. repeat split.
    + rewrite fetch_non_ok by exact Hok. cbn [fst].
      eexists. split; [reflexivity|].
      destruct (status =? 404)%Z eqn:H404.
      * apply Z.eqb_eq in H404. subst status. repeat split.
      * destruct (status =? 403)%Z; repeat split.
Qed.

(** X8.  Whatever the network answers, [fetchChapter] issues exactly one
    request, for the URL it was given and before anything else, and it
    navigates the browser (to that same URL, once) if and only if the
    response status is 403. *)
Theorem fetch_requests_once_navigates_on_403
        (StringToNumber : string -> JSNum) (trim : string -> string)
        (url title : string) (reply : Fetch.HttpResult) :
  let effs := fst (Fetch.fetchChapter StringToNumber trim url title reply) in
  hd_error effs = Some (HttpGet url) /\
  filter isHttpGet effs = [HttpGet url] /\
  (filter isNavigate effs = [Navigate url]
   \/ filter isNavigate effs = []) /\
  (In (Navigate url) effs <-> exists body, reply = Fetch.Response 403 body) /\
  (forall u, In (Navigate u) effs -> u = url).
Proof.
  cbv zeta.
  destruct (fetch_effects StringToNumber trim url title reply)
    as (rest & E & Hget & Hnav & _).
  rewrite E. cbn [hd_error filter isHttpGet isNavigate]. rewrite Hget.
  split; [reflexivity|]. split; [reflexivity|].
  assert (Hin : forall u, In (Navigate u) (HttpGet url :: rest)
                          <-> In (Navigate u) (filter isNavigate rest)).
  { intros u. rewrite filter_In. cbn [In isNavigate]. split.
    - intros [H|H]; [discriminate H | split; [exact H | reflexivity]].
    - intros [H _]. right. exact H. }
  split; [|split].
  - rewrite Hnav. destruct reply as [|status body]; [right; reflexivity|].
    destruct (Fetch.ok status); [right; reflexivity|].
    destruct (status =? 403)%Z; [left | right]; reflexivity.
  - rewrite Hin, Hnav. destruct reply as [|status body].
    + split; [intros [] | intros [b Hb]; discriminate Hb].
    + destruct (Fetch.ok status) eqn:Hok.
      * split; [intros [] | intros [b Hb]]. injection Hb as Hs _. subst status.
        discriminate Hok.
      * destruct (status =? 403)%Z eqn:H403.
        -- apply Z.eqb_eq in H403. subst status.
           split; [intros _; exists body; reflexivity | intros _; left; reflexivity].
        -- split; [intros [] | intros [b Hb]]. injection Hb as Hs _. subst status.
           discriminate H403.
  - intros u Hu. apply Hin in Hu. rewrite Hnav in Hu.
    destruct reply as [|status body]; [destruct Hu|].
    destruct (Fetch.ok status); [destruct Hu|].
    destruct (status =? 403)%Z; [|destruct Hu].
    destruct Hu as [Hu|[]]. injection Hu as Hu. symmetry. exact Hu.
Qed.

(** X9.  What the completion of [fetchChapter] tells its caller: a record
    means a 2xx response with a readable body, and the record is the parse
    of that body with [uri] equal to the URL fetched; null means a response
    with a status outside 2xx; an exception means that there was no
    response or that the body of a 2xx response could not be read. *)
Theorem fetch_completion_meaning
        (StringToNumber : string -> JSNum) (trim : string -> string)
        (url title : string) (reply : Fetch.HttpResult) :
  let completion := snd (Fetch.fetchChapter StringToNumber trim url title reply) in
  (forall d, completion = Returned (Some d) ->
     uri d = url
     /\ exists status doc,
         reply = Fetch.Response status (Some doc) /\ (200 <= status <= 299)%Z
         /\ d = snd (Fetch.extractChapterData StringToNumber trim doc url)) /\
  (completion = Returned None ->
     exists status body,
       reply = Fetch.Response status body /\ ~ (200 <= status <= 299)%Z) /\
  (forall e, completion = Threw e ->
     (reply = Fetch.NetworkFailure /\ e = NetworkError)
     \/ (exists status, reply = Fetch.Response status None
                        /\ (200 <= status <= 299)%Z /\ e = BodyError)).
Proof.
  cbv zeta. destruct reply as [|status body].
  - cbn [Fetch.fetchChapter snd]. split; [|split].
    + intros d H. discriminate H.
    + intros H. discriminate H.
    + intros e H. injection H as H. left. split; [reflexivity | symmetry; exact H].
  - destruct (Fetch.ok status) eqn:Hok.
    + pose proof (proj1 (ok_range status) Hok) as Hr.
      unfold Fetch.fetchChapter. rewrite Hok. destruct body as [doc|].
      * pose proof (extract_uri StringToNumber trim doc url) as Hu.
        destruct (Fetch.extractChapterData StringToNumber trim doc url)
          as [logs data] eqn:Ex.
        cbn [snd] in *. rewrite copyChapterData_same. split; [|split].
        -- intros d H. injection H as H. subst d. split; [exact Hu|].
           exists status, doc. split; [reflexivity|]. split; [exact Hr|].
           fold (Fetch.extractChapterData StringToNumber trim doc url).
           rewrite Ex. reflexivity.
        -- intros H. discriminate H.
        -- intros e H. discriminate H.
      * cbn [snd]. split; [|split].
        -- intros d H. discriminate H.
        -- intros H. discriminate H.
        -- intros e H. injection H as H. right. exists status.
           split; [reflexivity|]. split; [exact Hr | symmetry; exact H].
    + rewrite fetch_non_ok by exact Hok. cbn [snd]. split; [|split].
      * intros d H. discriminate H.
      * intros _. exists status, body. split; [reflexivity|].
        intros Hr. apply ok_range in Hr. rewrite Hr in Hok. discriminate Hok.
      * intros e H. discriminate H.
Qed.

(** X10.  A page on which nothing is recognised still parses: when none of
    the three content containers exists the content is the error
    placeholder and exactly that is reported by one warning; when the
    heading is absent the title is the fallback text; the [uri] is always
    the one passed in; and whatever the page, the parser logs nothing but
    that one warning. *)
Theorem degraded_page_still_parses
        (StringToNumber : string -> JSNum) (trim : string -> string)
        (doc : Fetch.Document) (u : string) :
  let logs := fst (Fetch.extractChapterData StringToNumber trim doc u) in
  let data := snd (Fetch.extractChapterData StringToNumber trim doc u) in
  (Fetch.textRight doc = None -> Fetch.entryContent doc = None ->
   Fetch.textLeft doc = None ->
   content data = "<p>Error: Chapter content not found.</p>"%string
   /\ logs = [Fetch.contentWarning]) /\
  (Fetch.chapterHeading doc = None -> title data = "Chapter Title Missing"%string) /\
  (forall h, Fetch.chapterHeading doc = Some h ->
             title data = trim (Fetch.textContent h)) /\
  uri data = u /\
  (logs = [] \/ logs = [Fetch.contentWarning]) /\
  (content data = "<p>Error: Chapter content not found.</p>"%string ->
   logs = [Fetch.contentWarning]).
Proof.
  cbv zeta.
  pose proof (extract_logs StringToNumber trim doc u) as Hlogs.
  pose proof (extract_logs_warn StringToNumber trim doc u) as Hwarn.
  split; [|split; [|split; [|split; [|split]]]].
  - intros H1 H2 H3. rewrite Hlogs.
    unfold Fetch.extractChapterData, Fetch.contentOf. cbn [snd content].
    rewrite H1, H2, H3. split; reflexivity.
  - intros H. unfold Fetch.extractChapterData, Fetch.titleOf. cbn [snd title].
    rewrite H. reflexivity.
  - intros h H. unfold Fetch.extractChapterData, Fetch.titleOf. cbn [snd title].
    rewrite H. reflexivity.
  - reflexivity.
  - exact Hwarn.
  - rewrite Hlogs. unfold Fetch.extractChapterData. cbn [snd content].
    intros H. rewrite H. reflexivity.
Qed.

(** ** The reader on top of the fetcher *)

(** X11.  One advance call of the reader wired to [fetchChapter] sends at
    most one request: exactly one, for the URL of the table-of-contents
    entry at the cursor, when no fetch is in flight, the reader is not
    exhausted and the cursor is inside the table of contents; none
    otherwise.  This holds whatever the network answers. *)
Theorem one_request_per_advance
        (StringToNumber : string -> JSNum) (trim : string -> string)
        (net : string -> Fetch.HttpResult)
        (props : ReaderProps) (dom : Dom) (s : State) :
  filter isHttpGet
         (effectsOf (Reader.loadNextChapter (fetcherOf StringToNumber trim net)
                                            props dom s))
  = if fetching s || lastChapter s then []
    else match index (availableChapters props) (nextChapterIndex s) with
         | Some c => [HttpGet (value c)]
         | None => []
         end.
Proof.
  destruct (fetching s) eqn:Hf.
  { rewrite loadNextChapter_reentrant by (left; exact Hf). reflexivity. }
  destruct (lastChapter s) eqn:Hl.
  { rewrite loadNextChapter_reentrant by (right; exact Hl). reflexivity. }
  cbn [orb].
  destruct (index (availableChapters props) (nextChapterIndex s)) as [c|] eqn:Hi.
  - destruct (fetch_effects StringToNumber trim (value c) (text c) (net (value c)))
      as (rest & E & Hget & _).
    destruct (fetcherOf StringToNumber trim net (value c) (text c))
      as [effs completion] eqn:Hfetch.
    unfold fetcherOf in Hfetch. rewrite Hfetch in E. cbn [fst] in E. subst effs.
    fold (fetcherOf StringToNumber trim net (value c) (text c)) in Hfetch.
    destruct completion as [[r|]|e].
    + destruct (le_lt_dec 3 (List.length (chapters s))) as [Hlen|Hlen].
      * rewrite (loadNextChapter_evict _ props dom s c _ Hf Hl Hi r Hfetch Hlen).
        unfold effectsOf. cbn [snd]. rewrite filter_app.
        cbn [filter isHttpGet]. rewrite Hget.
        destruct (anchorOf dom (chapters s)); reflexivity.
      * rewrite (loadNextChapter_append _ props dom s c _ Hf Hl Hi r Hfetch Hlen).
        unfold effectsOf. cbn [snd filter isHttpGet]. rewrite Hget. reflexivity.
    + rewrite (loadNextChapter_null _ props dom s c _ Hf Hl Hi Hfetch).
      unfold effectsOf. cbn [snd filter isHttpGet]. rewrite Hget. reflexivity.
    + rewrite (loadNextChapter_threw _ props dom s c _ Hf Hl Hi e Hfetch).
      unfold effectsOf. cbn [snd]. rewrite filter_app.
      cbn [filter isHttpGet fetchError]. rewrite Hget. reflexivity.
  - rewrite loadNextChapter_out_of_range; [reflexivity | exact Hf | exact Hl |].
    intros Hr. apply index_range_Some in Hr. destruct Hr as [x Hx].
    rewrite Hx in Hi. discriminate Hi.
Qed.

(** X12.  A 403 response during an advance call: the reader sends the
    request, navigates the browser to the chapter's own URL exactly once,
    logs the failure, and ends exhausted with the in-flight flag cleared,
    the window and the cursor unchanged and no anchor pending. *)
Theorem forbidden_chapter_leaves_the_reader
        (StringToNumber : string -> JSNum) (trim : string -> string)
        (net : string -> Fetch.HttpResult)
        (props : ReaderProps) (dom : Dom) (s : State) (c : Chapter)
        (body : option Fetch.Document) :
  fetching s = false ->
  lastChapter s = false ->
  index (availableChapters props) (nextChapterIndex s) = Some c ->
  net (value c) = Fetch.Response 403 body ->
  Reader.loadNextChapter (fetcherOf StringToNumber trim net) props dom s
  = (Returned tt,
     mkState (nextChapterIndex s) (chapters s) true false None,
     [HttpGet (value c); Navigate (value c); Fetch.fetchFailed (text c)]).
Proof.
  intros Hf Hl Hi Hnet.
  apply (loadNextChapter_null _ props dom s c _ Hf Hl Hi).
  unfold fetcherOf. rewrite Hnet. reflexivity.
Qed.

Lemma forbidden_chapter_leaves_the_reader_witness :
  let net := fun _ : string => Fetch.Response 403 None in
  Reader.loadNextChapter (fetcherOf decimalToNumber asciiTrim net) fiveChapters page
                         (init fiveChapters)
  = (Returned tt, mkState 1 [record 0] true false None,
     [HttpGet (chapterUrl 1); Navigate (chapterUrl 1); Fetch.fetchFailed "Chapter"]).
Proof.
  cbv zeta.
  exact (forbidden_chapter_leaves_the_reader decimalToNumber asciiTrim
           (fun _ : string => Fetch.Response 403 None) fiveChapters page
           (init fiveChapters) (tocEntry 1) None eq_refl eq_refl eq_refl eq_refl).
Defined.

Lemma fetch_2xx (StringToNumber : string -> JSNum) (trim : string -> string)
      (url title : string) (status : Z) (doc : Fetch.Document) :
  (200 <= status <= 299)%Z ->
  Fetch.fetchChapter StringToNumber trim url title (Fetch.Response status (Some doc))
  = (HttpGet url :: fst (Fetch.extractChapterData StringToNumber trim doc url),
     Returned (Some (snd (Fetch.extractChapterData StringToNumber trim doc url)))).
Proof.
  intros H. apply ok_range in H. unfold Fetch.fetchChapter. rewrite H.
  destruct (Fetch.extractChapterData StringToNumber trim doc url) as [logs data].
  rewrite copyChapterData_same. reflexivity.
Qed.

(** X13.  A 2xx response during an advance call: the record put at the end
    of the window is the parse of the fetched page, its [uri] is the URL of
    the table-of-contents entry at the cursor (whatever the page says), the
    cursor moves by one, and the reader is neither exhausted nor left
    fetching. *)
Theorem fetched_page_is_appended
        (StringToNumber : string -> JSNum) (trim : string -> string)
        (net : string -> Fetch.HttpResult)
        (props : ReaderProps) (dom : Dom) (s : State) (c : Chapter)
        (status : Z) (doc : Fetch.Document) :
  fetching s = false ->
  lastChapter s = false ->
  index (availableChapters props) (nextChapterIndex s) = Some c ->
  net (value c) = Fetch.Response status (Some doc) ->
  (200 <= status <= 299)%Z ->
  let parsed := snd (Fetch.extractChapterData StringToNumber trim doc (value c)) in
  let s' := Reader.advance (fetcherOf StringToNumber trim net) props dom s in
  chapters s' = (if (3 <=? List.length (chapters s))%nat
                 then skipn 1 (chapters s) else chapters s) ++ [parsed] /\
  uri parsed = value c /\
  id parsed = Fetch.chapterIdOf StringToNumber doc /\
  nextChapterIndex s' = (nextChapterIndex s + 1)%Z /\
  lastChapter s' = false /\ fetching s' = false.
Proof.
  intros Hf Hl Hi Hnet Hok. cbv zeta.
  assert (Hfetch : fetcherOf StringToNumber trim net (value c) (text c)
                   = (HttpGet (value c)
                        :: fst (Fetch.extractChapterData StringToNumber trim doc (value c)),
                      Returned (Some (snd (Fetch.extractChapterData StringToNumber trim
                                                                    doc (value c)))))).
  { unfold fetcherOf. rewrite Hnet. apply fetch_2xx. exact Hok. }
  unfold Reader.advance.
  destruct (Nat.leb_spec 3 (List.length (chapters s))) as [Hlen|Hlen].
  - rewrite (loadNextChapter_evict _ props dom s c _ Hf Hl Hi _ Hfetch Hlen).
    unfold stateOf. cbn [fst snd]. signals. repeat split.
  - rewrite (loadNextChapter_append _ props dom s c _ Hf Hl Hi _ Hfetch Hlen).
    unfold stateOf. cbn [fst snd]. signals. repeat split.
Qed.

Lemma fetched_page_is_appended_witness :
  chapters (Reader.advance (fetcherOf decimalToNumber asciiTrim healthy)
                           fiveChapters page (init fiveChapters))
  = [record 0; record 1]
  /\ uri (record 1) = chapterUrl 1.
Proof.
  destruct (fetched_page_is_appended decimalToNumber asciiTrim healthy fiveChapters page
              (init fiveChapters) (tocEntry 1) 200 (chapterPage "101")
              eq_refl eq_refl eq_refl eq_refl) as (H1 & H2 & _).
  - lia.
  - split; [exact H1 | exact H2].
Defined.

(** ** Eviction and the reading position *)



(** ** Rejections *)

(** X15.  The advance operation of the refactored component never rejects:
    for every state, table of contents and layout, whenever the awaited
    fetch settles, by returning or by throwing, the promise of the
    operation is fulfilled.  (A fetch that never settles leaves the
    operation pending; the model has no such fetch.) *)
Theorem advance_never_rejects
        (f : Fetcher) (props : ReaderProps) (dom : Dom) (s : State) :
  completionOf (Reader.loadNextChapter f props dom s) = Returned tt.
Proof.
  destruct (fetching s) eqn:Hf.
  - rewrite loadNextChapter_reentrant by (left; exact Hf). reflexivity.
  - apply (loadNextChapter_outcome f props dom s Hf).
Qed.

Lemma legacy_step_blocked (props : ReaderProps) (ev : Reader.Event) (s : State) :
  fetching s = true -> legacyStep props ev s = (s, []).
Proof.
  intros H. destruct ev as [A el vp f dom domAfter|f dom domAfter];
    cbn [legacyStep]; unfold Legacy.runTask, runTaskWith.
  - unfold Legacy.handleScroll, bind, read.
    destruct (lastChapter s); [reflexivity|].
    rewrite H. cbn [negb]. rewrite andb_false_r. reflexivity.
  - unfold detached. rewrite legacy_reentrant by (left; exact H). reflexivity.
Qed.

Lemma legacy_run_blocked (props : ReaderProps) (evs : list Reader.Event) (s : State) :
  fetching s = true -> legacyRun props evs s = s.
Proof.
  intros H. induction evs as [|ev rest IH]; cbn [legacyRun]; [reflexivity|].
  rewrite (legacy_step_blocked props ev s H). exact IH.
Qed.

(** X16.  In the first version of the component a call of the advance
    operation rejects with an error exactly when (if and only if) it passes
    the guard and either the cursor is outside the table of contents (the
    error is then the TypeError of reading [value]) or the fetch throws
    that error; the
    in-flight flag is then left set with every other signal unchanged, and
    from then on no scroll event or advance call changes anything: the
    reader loads no further chapter in that session. *)
Theorem legacy_fault_blocks_the_reader
        (f : Fetcher) (props : ReaderProps) (dom : Dom) (s : State) (e : JSError) :
  (completionOf (Legacy.loadNextChapter f props dom s) = Threw e <->
   (fetching s = false /\ lastChapter s = false
    /\ ((index (availableChapters props) (nextChapterIndex s) = None
         /\ e = TypeError "value")
        \/ exists c effs,
            index (availableChapters props) (nextChapterIndex s) = Some c
            /\ f (value c) (text c) = (effs, Threw e))))
  /\ (completionOf (Legacy.loadNextChapter f props dom s) = Threw e ->
      Legacy.advance f props dom s = withFetching true s
      /\ forall evs, legacyRun props evs (Legacy.advance f props dom s)
                     = Legacy.advance f props dom s).
Proof.
  assert (Conv : fetching s = false /\ lastChapter s = false
    /\ ((index (availableChapters props) (nextChapterIndex s) = None
         /\ e = TypeError "value")
        \/ exists c effs,
            index (availableChapters props) (nextChapterIndex s) = Some c
            /\ f (value c) (text c) = (effs, Threw e))
    -> completionOf (Legacy.loadNextChapter f props dom s) = Threw e).
  { intros (Hf & Hl & [(Hi & He)|(c & effs & Hi & Hfetch)]).
    - rewrite (legacy_out_of_range f props dom s Hf Hl Hi). subst e. reflexivity.
    - rewrite (legacy_threw f props dom s c effs Hf Hl Hi e Hfetch). reflexivity. }
  cut (completionOf (Legacy.loadNextChapter f props dom s) = Threw e ->
       (fetching s = false /\ lastChapter s = false
        /\ ((index (availableChapters props) (nextChapterIndex s) = None
             /\ e = TypeError "value")
            \/ exists c effs,
                index (availableChapters props) (nextChapterIndex s) = Some c
                /\ f (value c) (text c) = (effs, Threw e)))
       /\ Legacy.advance f props dom s = withFetching true s
       /\ forall evs, legacyRun props evs (Legacy.advance f props dom s)
                      = Legacy.advance f props dom s).
  { intros Dir. split.
    - split; [intros H; apply (Dir H) | exact Conv].
    - intros H. apply (Dir H). }
  intros H.
  destruct (fetching s) eqn:Hf.
  { rewrite legacy_reentrant in H by (left; exact Hf). discriminate H. }
  destruct (lastChapter s) eqn:Hl.
  { rewrite legacy_reentrant in H by (right; exact Hl). discriminate H. }
  assert (Hgoal : (index (availableChapters props) (nextChapterIndex s) = None
                   /\ e = TypeError "value"
                   \/ exists c effs,
                       index (availableChapters props) (nextChapterIndex s) = Some c
                       /\ f (value c) (text c) = (effs, Threw e))
                  /\ Legacy.advance f props dom s = withFetching true s).
  { unfold Legacy.advance.
    destruct (index (availableChapters props) (nextChapterIndex s)) as [c|] eqn:Hi.
    - destruct (f (value c) (text c)) as [effs [[r|]|e']] eqn:Hfetch.
      + destruct (le_lt_dec 3 (List.length (chapters s))) as [Hlen|Hlen].
        * destruct (legacy_evict f props dom s c effs Hf Hl Hi r Hfetch Hlen) as (E & _).
          rewrite E in H. discriminate H.
        * rewrite (legacy_append f props dom s c effs Hf Hl Hi r Hfetch Hlen) in H.
          discriminate H.
      + rewrite (legacy_null f props dom s c effs Hf Hl Hi Hfetch) in H. discriminate H.
      + rewrite (legacy_threw f props dom s c effs Hf Hl Hi e' Hfetch) in *.
        injection H as H. subst e'. split; [|reflexivity].
        right. exists c, effs. split; [reflexivity | exact Hfetch].
    - rewrite (legacy_out_of_range f props dom s Hf Hl Hi) in *.
      injection H as H. subst e. split; [|reflexivity]. left. split; reflexivity. }
  destruct Hgoal as [Hwhy Hstate].
  split; [split; [reflexivity | split; [reflexivity | exact Hwhy]]|].
  split; [exact Hstate|].
  intros evs. rewrite Hstate. apply legacy_run_blocked. reflexivity.
Qed.

Lemma legacy_fault_blocks_the_reader_witness :
  let down := fetcherOf decimalToNumber asciiTrim offline in
  let s' := Legacy.advance down fiveChapters page (init fiveChapters) in
  fetching s' = true /\
  legacyRun fiveChapters
            [Reader.AdvanceCall (serve (record 1)) page page;
             Reader.ScrollEvent (Some (mkRect ieee (-900)%float 1000%float))
                                    (mkViewport ieee 800%float 800%float)
                                (serve (record 1)) page page] s'
  = s'.
Proof.
  cbv zeta.
  destruct (legacy_fault_blocks_the_reader
              (fetcherOf decimalToNumber asciiTrim offline) fiveChapters page
              (init fiveChapters) NetworkError) as (_ & Hblocked).
  destruct (Hblocked eq_refl) as (Hs & Hrun).
  split; [rewrite Hs; reflexivity | apply Hrun].
Defined.

(** ** The first version over whole sessions *)

Lemma legacy_restoreMicrotask_state (dom : Dom) (a : Anchor) (s : State) :
  stateOf (Legacy.restoreMicrotask dom a s) = withAnchor None s
  /\ completionOf (Legacy.restoreMicrotask dom a s) = Returned tt.
Proof.
  unfold Legacy.restoreMicrotask, bind, emit.
  destruct (chapterOffsetTop dom (anchor_id a)); split; reflexivity.
Qed.

Lemma legacy_runMicrotasks_state (dom : Dom) (queue : list Anchor) (s : State) :
  stateOf (runMicrotasks Legacy.restoreMicrotask dom queue s)
  = match queue with [] => s | _ => withAnchor None s end.
Proof.
  revert s. induction queue as [|a rest IH]; intros s; [reflexivity|].
  cbn [runMicrotasks]. unfold bind.
  destruct (legacy_restoreMicrotask_state dom a s) as [Hs Hc].
  destruct (Legacy.restoreMicrotask dom a s) as [[r s1] e1].
  unfold stateOf, completionOf in Hs, Hc. cbn [fst snd] in Hs, Hc. subst s1 r.
  specialize (IH (withAnchor None s)).
  destruct (runMicrotasks Legacy.restoreMicrotask dom rest (withAnchor None s))
    as [[r2 s2] e2].
  unfold stateOf in *. cbn [fst snd] in *. rewrite IH. destruct rest; reflexivity.
Qed.

Lemma legacy_runTask_state (task : Act unit) (domAfter : Dom) (s : State) :
  fst (Legacy.runTask task domAfter s)
  = match microtasksOf (effectsOf (task s)) with
    | [] => stateOf (task s)
    | _ => withAnchor None (stateOf (task s))
    end.
Proof.
  unfold Legacy.runTask, runTaskWith.
  destruct (task s) as [[r s1] e1]. unfold stateOf, effectsOf. cbn [fst snd].
  pose proof (legacy_runMicrotasks_state domAfter (microtasksOf e1) s1) as H.
  destruct (runMicrotasks Legacy.restoreMicrotask domAfter (microtasksOf e1) s1)
    as [[r2 s2] e2].
  unfold stateOf in H. cbn [fst snd] in *. exact H.
Qed.

Lemma legacy_window (f : Fetcher) (props : ReaderProps) (dom : Dom) (s : State) :
  let window' := chapters (Legacy.advance f props dom s) in
  window' = chapters s
  \/ (exists r, (List.length (chapters s) < 3)%nat /\ window' = chapters s ++ [r])
  \/ (exists r, (3 <= List.length (chapters s))%nat
                /\ window' = skipn 1 (chapters s) ++ [r]).
Proof.
  cbv zeta. unfold Legacy.advance.
  destruct (fetching s) eqn:Hf.
  { rewrite legacy_reentrant by (left; exact Hf). left; reflexivity. }
  destruct (lastChapter s) eqn:Hl.
  { rewrite legacy_reentrant by (right; exact Hl). left; reflexivity. }
  destruct (index (availableChapters props) (nextChapterIndex s)) as [c|] eqn:Hi.
  - destruct (f (value c) (text c)) as [effs [[r|]|e]] eqn:Hfetch.
    + destruct (le_lt_dec 3 (List.length (chapters s))) as [Hlen|Hlen].
      * destruct (legacy_evict f props dom s c effs Hf Hl Hi r Hfetch Hlen) as (_ & E & _).
        rewrite E. right; right. exists r. split; [exact Hlen | reflexivity].
      * rewrite (legacy_append f props dom s c effs Hf Hl Hi r Hfetch Hlen).
        right; left. exists r. split; [exact Hlen | reflexivity].
    + rewrite (legacy_null f props dom s c effs Hf Hl Hi Hfetch). left; reflexivity.
    + rewrite (legacy_threw f props dom s c effs Hf Hl Hi e Hfetch). left; reflexivity.
  - rewrite (legacy_out_of_range f props dom s Hf Hl Hi). left; reflexivity.
Qed.

Lemma legacy_handleScroll_state (A : Arith) (el : option (DOMRect A)) (vp : Viewport A) (f : Fetcher)
      (props : ReaderProps) (dom : Dom) (s : State) :
  Legacy.handleScroll el vp f props dom s = (Returned tt, s, [])
  \/ Legacy.handleScroll el vp f props dom s
     = detached (Legacy.loadNextChapter f props dom) s.
Proof.
  unfold Legacy.handleScroll, bind, read.
  destruct (lastChapter s); [left; reflexivity|].
  destruct (ltb A _ _ && negb _); [right | left; reflexivity].
  unfold detached. destruct (Legacy.loadNextChapter f props dom s) as [[r s1] e1].
  reflexivity.
Qed.

Lemma legacy_step_chapters (props : ReaderProps) (ev : Reader.Event) (s : State) :
  chapters (fst (legacyStep props ev s)) = chapters s
  \/ exists f dom,
      chapters (fst (legacyStep props ev s)) = chapters (Legacy.advance f props dom s).
Proof.
  assert (Hdet : forall f dom domAfter,
             chapters (fst (Legacy.runTask (detached (Legacy.loadNextChapter f props dom))
                                           domAfter s))
             = chapters (Legacy.advance f props dom s)).
  { intros f dom domAfter. rewrite legacy_runTask_state.
    unfold detached, Legacy.advance, stateOf, effectsOf.
    destruct (Legacy.loadNextChapter f props dom s) as [[r s1] e1]. cbn [fst snd].
    destruct (microtasksOf e1); reflexivity. }
  destruct ev as [A el vp f dom domAfter|f dom domAfter]; cbn [legacyStep].
  - destruct (legacy_handleScroll_state A el vp f props dom s) as [E|E].
    + left. unfold Legacy.runTask, runTaskWith. rewrite E. reflexivity.
    + right. exists f, dom. rewrite <- Hdet with (domAfter := domAfter).
      unfold Legacy.runTask, runTaskWith. rewrite E. reflexivity.
  - right. exists f, dom. apply Hdet.
Qed.

(** X17.  The window length invariant also holds in the first version of
    the component: from the seeded one-element window, after any sequence
    of scroll events and advance calls, including calls that fault, the
    window holds between one and three records. *)
Theorem legacy_window_length_invariant
        (props : ReaderProps) (evs : list Reader.Event) :
  (1 <= List.length (chapters (legacyRun props evs (init props))) <= 3)%nat.
Proof.
  assert (Hrun : forall s, windowBounded s -> windowBounded (legacyRun props evs s)).
  { induction evs as [|ev rest IH]; intros s H; cbn [legacyRun]; [exact H|].
    apply IH. unfold windowBounded in *.
    destruct (legacy_step_chapters props ev s) as [E|[f [dom E]]]; rewrite E;
      [exact H|].
    destruct (legacy_window f props dom s) as [E'|[[r [Hlen E']]|[r [Hlen E']]]];
      rewrite E'.
    - exact H.
    - rewrite length_app. cbn [List.length]. lia.
    - rewrite slide_length by lia. lia. }
  apply (Hrun (init props)). unfold windowBounded. cbn. lia.
Qed.

Lemma legacy_step_serve (props : ReaderProps) (dom domAfter : Dom) (s : State)
      (l : Chapter) (c : ChapterData) :
  fetching s = false ->
  lastChapter s = false ->
  index (availableChapters props) (nextChapterIndex s) = Some l ->
  fst (legacyStep props (Reader.AdvanceCall (serve c) dom domAfter) s)
  = fst (Reader.step props (Reader.AdvanceCall (serve c) dom domAfter) s).
Proof.
  intros Hf Hl Hi.
  destruct (step_serve props dom domAfter s l c Hf Hl Hi) as [E _]. rewrite E.
  cbn [legacyStep]. rewrite legacy_runTask_state.
  unfold detached, stateOf, effectsOf.
  destruct (Nat.leb_spec 3 (List.length (chapters s))) as [Hlen|Hlen].
  - destruct (legacy_evict (serve c) props dom s l [HttpGet (value l)]
                Hf Hl Hi c eq_refl Hlen) as (_ & Es & Em).
    unfold stateOf, effectsOf in Es, Em.
    destruct (Legacy.loadNextChapter (serve c) props dom s) as [[r s1] e1].
    cbn [fst snd] in *. subst s1. rewrite Em. cbn [microtasksOf flat_map app].
    destruct (anchorOf dom (chapters s)); reflexivity.
  - rewrite (legacy_append (serve c) props dom s l [HttpGet (value l)]
               Hf Hl Hi c eq_refl Hlen).
    reflexivity.
Qed.

(** X18.  As long as nothing goes wrong the two versions cannot be told
    apart by their signals: from the same state (nothing in flight, not
    exhausted, a window of at most three records), a run of advance calls
    whose fetches all succeed within the table of contents leaves the first
    version and the refactored one in the same state. *)
Theorem versions_agree_on_successful_runs
        (props : ReaderProps) (calls : list (ChapterData * Dom * Dom)) (s : State) :
  fetching s = false ->
  lastChapter s = false ->
  (List.length (chapters s) <= 3)%nat ->
  (0 <= nextChapterIndex s)%Z ->
  (nextChapterIndex s + Z.of_nat (List.length calls)
   <= Z.of_nat (List.length (availableChapters props)))%Z ->
  legacyRun props (serveAll calls) s = Reader.run props (serveAll calls) s.
Proof.
  revert s. induction calls as [|[[r dom] domAfter] rest IH]; intros s Hf Hl Hw H0 Hn.
  - reflexivity.
  - cbn [serveAll map legacyRun Reader.run]. fold (serveAll rest).
    cbn [List.length] in Hn.
    destruct (index_range_Some (availableChapters props) (nextChapterIndex s))
      as [l Hi]; [lia|].
    rewrite (legacy_step_serve props dom domAfter s l r Hf Hl Hi).
    destruct (step_serve props dom domAfter s l r Hf Hl Hi) as [E _]. rewrite E.
    apply IH; signals; try reflexivity; try lia.
    destruct (Nat.leb_spec 3 (List.length (chapters s))).
    + rewrite slide_length by lia. lia.
    + rewrite length_app. cbn [List.length]. lia.
Qed.

Lemma versions_agree_on_successful_runs_witness :
  let calls := [(record 1, page, page); (record 2, page, page);
                (record 3, page, page); (record 4, page, page)] in
  legacyRun fiveChapters (serveAll calls) (init fiveChapters)
  = Reader.run fiveChapters (serveAll calls) (init fiveChapters).
Proof.
  cbv zeta.
  apply (versions_agree_on_successful_runs fiveChapters
           [(record 1, page, page); (record 2, page, page);
            (record 3, page, page); (record 4, page, page)]
           (init fiveChapters)); [reflexivity | reflexivity | | | ]; cbn; lia.
Defined.

(** ** More on the scroll percentage *)

